(** * Audio converter: the external-tool orchestration core of [main.py]

    A shallow embedding of the three pieces of [main.py] that carry logic:
    the tool locator ([_find_ffmpeg_binary], [_install_ffmpeg_windows],
    [_install_ffmpeg_macos], [ensure_ffmpeg]), the command construction in
    [RetroWindow.start_convert], and the process runner [FfmpegWorker.run].

    Python strings are [string], argument vectors are [list string], integers
    are [Z].  Everything the code asks of its surroundings (file system,
    search path, the answers given to dialogs, what launching a program
    does) lives in a [World] record that is threaded through a small
    state-and-exception monad which also records an ordered trace of the
    observable events. *)

From Stdlib Require Import String Ascii List ZArith Bool Lia.
From Stdlib Require Import DecimalString DecimalPos DecimalZ.
Import ListNotations.

Open Scope string_scope.
Open Scope list_scope.

(** ** Python string primitives *)

Module PyStr.

(** [s[n:]] for a non-negative [n]. *)
Fixpoint drop (n : nat) (s : string) : string :=
  match n, s with
  | O, _ => s
  | S _, EmptyString => EmptyString
  | S n', String _ r => drop n' r
  end.

(** [s[:n]] for a non-negative [n]. *)
Fixpoint take (n : nat) (s : string) : string :=
  match n, s with
  | O, _ => EmptyString
  | S _, EmptyString => EmptyString
  | S n', String a r => String a (take n' r)
  end.

(** Index of the last occurrence of [c], if there is one. *)
Fixpoint rindex (c : ascii) (s : string) : option nat :=
  match s with
  | EmptyString => None
  | String a r =>
      match rindex c r with
      | Some i => Some (S i)
      | None => if Ascii.eqb a c then Some O else None
      end
  end.

(** [s.rfind(c)]: the index of the last occurrence, [-1] when absent. *)
Definition rfind (c : ascii) (s : string) : Z :=
  match rindex c s with
  | Some i => Z.of_nat i
  | None => (-1)%Z
  end.

(** [s[i:]] and [s[:i]] for an index [i >= 0]. *)
Definition slice_from (i : Z) (s : string) : string := drop (Z.to_nat i) s.
Definition slice_to (i : Z) (s : string) : string := take (Z.to_nat i) s.

(** [s[i:i+1]]: one character, or the empty string past the end. *)
Definition char_at (i : Z) (s : string) : string :=
  take 1 (drop (Z.to_nat i) s).

(** [s.startswith(p)]. *)
Definition startswith (p s : string) : bool := String.prefix p s.

(** [s.endswith(c)] for a one-character [c]. *)
Fixpoint ends_with_char (c : ascii) (s : string) : bool :=
  match s with
  | EmptyString => false
  | String a EmptyString => Ascii.eqb a c
  | String _ r => ends_with_char c r
  end.

(** [s.rstrip(c)] for a one-character [c]. *)
Fixpoint rstrip (c : ascii) (s : string) : string :=
  match s with
  | EmptyString => EmptyString
  | String a r =>
      match rstrip c r with
      | EmptyString => if Ascii.eqb a c then EmptyString else String a EmptyString
      | r' => String a r'
      end
  end.

(** [s == c * len(s)]. *)
Fixpoint all_char (c : ascii) (s : string) : bool :=
  match s with
  | EmptyString => true
  | String a r => Ascii.eqb a c && all_char c r
  end.

(** Truth value of a string: non-empty. *)
Definition truthy (s : string) : bool := negb (s =? "").

(** Truth value of a string-or-[None]. *)
Definition truthy_opt (o : option string) : bool :=
  match o with
  | Some s => truthy s
  | None => false
  end.

(** [x in l] for a list of strings. *)
Definition mem (x : string) (l : list string) : bool :=
  existsb (String.eqb x) l.

(** [sep.join(l)]. *)
Definition str_join (sep : string) (l : list string) : string :=
  String.concat sep l.

End PyStr.

(** ** [os.path]

    [os.path] is [posixpath] or [ntpath] depending on the host; the code
    only goes through the four functions below, so they form an interface
    and the POSIX flavour is the instance given here. *)

Class OsPath := {
  path_join : string -> string -> string;
  path_basename : string -> string;
  path_splitext : string -> string * string;
  path_dirname : string -> string
}.

Module Posixpath.
Import PyStr.

Definition sep : ascii := "/"%char.
Definition extsep : ascii := "."%char.

(** [posixpath.join(a, b)]. *)
Definition join (a b : string) : string :=
  if startswith (String sep "") b then b
  else if negb (truthy a) || ends_with_char sep a then a ++ b
  else a ++ String sep "" ++ b.

(** [posixpath.basename(p)]. *)
Definition basename (p : string) : string :=
  let i := (rfind sep p + 1)%Z in
  slice_from i p.

(** The [while] loop of [genericpath._splitext]: is there a character
    other than the dot in [p[filenameIndex : filenameIndex + n]]? *)
Fixpoint non_dot_before (p : string) (filenameIndex : Z) (n : nat) : bool :=
  match n with
  | O => false
  | S n' =>
      if negb (char_at filenameIndex p =? String extsep "") then true
      else non_dot_before p (filenameIndex + 1)%Z n'
  end.

(** [posixpath.splitext(p)]. *)
Definition splitext (p : string) : string * string :=
  let sepIndex := rfind sep p in
  let dotIndex := rfind extsep p in
  if (sepIndex <? dotIndex)%Z
     && non_dot_before p (sepIndex + 1)%Z (Z.to_nat (dotIndex - (sepIndex + 1)))
  then (slice_to dotIndex p, slice_from dotIndex p)
  else (p, "").

(** [posixpath.dirname(p)]. *)
Definition dirname (p : string) : string :=
  let i := (rfind sep p + 1)%Z in
  let head := slice_to i p in
  if truthy head && negb (all_char sep head) then rstrip sep head else head.

#[export] Instance posixpath : OsPath := {
  path_join := join;
  path_basename := basename;
  path_splitext := splitext;
  path_dirname := dirname
}.

End Posixpath.

(** ** The command builder (lines 421-483 of [RetroWindow.start_convert]) *)

Section CommandBuilder.
Context {os_path : OsPath}.

(** The items of [format_combo] and [quality_combo]. *)
Definition format_items : list string :=
  ["mp3"; "opus"; "wav"; "flac"; "m4a"; "aac"; "ogg"; "wma"].
Definition quality_items : list string :=
  ["High quality"; "Balanced"; "Smaller file"].

(** [out_path = os.path.join(output_dir, f"{base_name}.{ext}")]. *)
Definition base_name (in_path : string) : string :=
  fst (path_splitext (path_basename in_path)).

Definition out_path (in_path output_dir ext : string) : string :=
  path_join output_dir (base_name in_path ++ "." ++ ext).

(** The [if ext == ... elif ...] chain. *)
Definition codec_args (ext quality : string) : list string :=
  if ext =? "mp3" then
    ["-c:a"; "libmp3lame"] ++
    (if quality =? "High quality" then ["-b:a"; "320k"]
     else if quality =? "Smaller file" then ["-b:a"; "128k"]
     else ["-b:a"; "192k"])
  else if ext =? "opus" then
    ["-c:a"; "libopus"] ++
    (if quality =? "High quality" then ["-b:a"; "160k"]
     else if quality =? "Smaller file" then ["-b:a"; "64k"]
     else ["-b:a"; "128k"])
  else if ext =? "wav" then ["-c:a"; "pcm_s16le"]
  else if ext =? "flac" then ["-c:a"; "flac"]
  else if PyStr.mem ext ["m4a"; "aac"] then
    ["-c:a"; "aac"] ++
    (if quality =? "High quality" then ["-b:a"; "256k"]
     else ["-b:a"; "192k"])
  else if ext =? "ogg" then
    ["-c:a"; "libvorbis"] ++
    (if quality =? "High quality" then ["-q:a"; "6"]
     else ["-q:a"; "4"])
  else if ext =? "wma" then ["-c:a"; "wmav2"; "-b:a"; "192k"]
  else [].

(** The two [# Filters] statements. *)
Definition filter_args (normalize strip_subs : bool) : list string :=
  (if normalize then ["-af"; "loudnorm"] else []) ++
  (if strip_subs then ["-sn"] else []).

(** The whole construction of [cmd], statement by statement. *)
Definition build_cmd (ffmpeg_path in_path output_dir ext quality : string)
           (normalize strip_subs : bool) : list string :=
  let cmd := [ffmpeg_path; "-y"; "-i"; in_path] in
  let cmd := cmd ++ ["-vn"] in
  let cmd := cmd ++ codec_args ext quality in
  let cmd := cmd ++ (if normalize then ["-af"; "loudnorm"] else []) in
  let cmd := cmd ++ (if strip_subs then ["-sn"] else []) in
  cmd ++ [out_path in_path output_dir ext].

End CommandBuilder.

(** ** The world outside the program *)

(** The exceptions a process launch can raise.  All three are subclasses of
    [OSError], hence of [Exception]; they are siblings of one another. *)
Inductive Exn :=
| FileNotFoundError
| PermissionError
| OtherOSError.

(** [isinstance(e, FileNotFoundError)] and [isinstance(e, Exception)]. *)
Definition is_FileNotFoundError (e : Exn) : bool :=
  match e with FileNotFoundError => true | _ => false end.
Definition is_Exception (e : Exn) : bool := true.

(** What a launched program does: the lines it writes to its combined
    output, its exit status, and what it has added to the file system and
    to the search path by the time it has exited. *)
Record Process := {
  stdout_lines : list string;
  returncode : Z;
  creates_files : list string;
  adds_to_path : list (string * string)
}.

Inductive Launch :=
| LaunchRaises (e : Exn)
| LaunchRuns (p : Process).

Inductive StandardButton := Yes | No | Ok_button.

Definition button_eqb (a b : StandardButton) : bool :=
  match a, b with
  | Yes, Yes | No, No | Ok_button, Ok_button => true
  | _, _ => false
  end.

Record World := {
  os_name : string;                      (* os.name *)
  sys_platform : string;                 (* sys.platform *)
  sys_frozen : bool;                     (* getattr(sys, "frozen", False) *)
  sys_executable : string;               (* sys.executable *)
  file_abspath : string;                 (* os.path.abspath(__file__) *)
  CREATE_NEW_CONSOLE : option Z;         (* the attribute of [subprocess], if any *)
  files : list string;                   (* paths for which os.path.isfile holds *)
  dirs : list string;                    (* paths for which os.path.isdir holds *)
  search_path : list (string * string);  (* what shutil.which resolves *)
  user_reply : string -> StandardButton; (* the answer to a question, by title *)
  launch : list string -> Launch         (* what starting an argv does *)
}.

(** The world once process [p] has exited. *)
Definition after_exit (p : Process) (w : World) : World :=
  {| os_name := os_name w;
     sys_platform := sys_platform w;
     sys_frozen := sys_frozen w;
     sys_executable := sys_executable w;
     file_abspath := file_abspath w;
     CREATE_NEW_CONSOLE := CREATE_NEW_CONSOLE w;
     files := creates_files p ++ files w;
     dirs := dirs w;
     search_path := adds_to_path p ++ search_path w;
     user_reply := user_reply w;
     launch := launch w |}.

(** [shutil.which(name)] against the search path of the world. *)
Fixpoint lookup_path (name : string) (l : list (string * string)) : option string :=
  match l with
  | [] => None
  | (k, v) :: r => if k =? name then Some v else lookup_path name r
  end.

(** ** Observable events, in the order they happen *)

Inductive DialogKind := Warning | Critical | Question | Information.

Inductive Event :=
| EvIsFile (path : string) (result : bool)
| EvIsDir (path : string) (result : bool)
| EvWhich (name : string) (result : option string)
| EvDialog (kind : DialogKind) (title : string)
| EvSpawn (argv : list string) (creationflags : Z)
| EvSpawnFailed (argv : list string) (e : Exn)
| EvChildExit (argv : list string) (rc : Z)
| EvPopen (argv : list string) (cwd : string)
          (startupinfo : option Z) (creationflags : Z)
| EvPopenFailed (argv : list string) (e : Exn)
| EvLogSignal (text : string)
| EvFinishedSignal (ok : bool)
| EvAppendLog (text : string)
| EvSetBusy (busy : bool)
| EvThreadStart (argv : list string) (cwd : string).

(** ** A state-and-exception monad with a trace *)

Inductive Res (A : Type) :=
| Ok (a : A)
| Raise (e : Exn).
Arguments Ok {A} a.
Arguments Raise {A} e.

Definition M (A : Type) : Type := World -> Res A * World * list Event.

Definition ret {A} (a : A) : M A := fun w => (Ok a, w, []).

Definition bind {A B} (m : M A) (f : A -> M B) : M B :=
  fun w =>
    match m w with
    | (Ok a, w1, t1) =>
        match f a w1 with
        | (r, w2, t2) => (r, w2, t1 ++ t2)
        end
    | (Raise e, w1, t1) => (Raise e, w1, t1)
    end.

(** [try: m  except <class>: h], with [handles] the [isinstance] test. *)
Definition try_except {A} (m : M A) (handles : Exn -> bool) (h : M A) : M A :=
  fun w =>
    match m w with
    | (Ok a, w1, t1) => (Ok a, w1, t1)
    | (Raise e, w1, t1) =>
        if handles e then
          match h w1 with
          | (r, w2, t2) => (r, w2, t1 ++ t2)
          end
        else (Raise e, w1, t1)
    end.

Definition ask {A} (f : World -> A) : M A := fun w => (Ok (f w), w, []).
Definition emit (e : Event) : M unit := fun w => (Ok tt, w, [e]).

Declare Scope py_scope.
Delimit Scope py_scope with py.
Notation "x <- m ;; k" := (bind m (fun x => k))
  (at level 100, m at next level, right associativity) : py_scope.
Notation "m ;; k" := (bind m (fun _ => k))
  (at level 100, right associativity) : py_scope.
Open Scope py_scope.

Definition result_of {A} (x : Res A * World * list Event) : Res A := fst (fst x).
Definition world_of {A} (x : Res A * World * list Event) : World := snd (fst x).
Definition trace_of {A} (x : Res A * World * list Event) : list Event := snd x.

(** ** Library calls the program makes *)

Definition os_path_isfile (p : string) : M bool :=
  fun w => let r := PyStr.mem p (files w) in (Ok r, w, [EvIsFile p r]).

Definition os_path_isdir (p : string) : M bool :=
  fun w => let r := PyStr.mem p (dirs w) in (Ok r, w, [EvIsDir p r]).

Definition shutil_which (name : string) : M (option string) :=
  fun w => let r := lookup_path name (search_path w) in (Ok r, w, [EvWhich name r]).

(** A modal message box: a question returns the user's answer, the other
    kinds return once the user has acknowledged them.  The message text is
    not recorded, the title identifies the box. *)
Definition message_box (kind : DialogKind) (title : string) : M StandardButton :=
  fun w =>
    (Ok (match kind with Question => user_reply w title | _ => Ok_button end),
     w, [EvDialog kind title]).

(** [subprocess.call(argv, creationflags=flags)]: start the program, WAIT
    for it to exit, return its exit status.  (In the library it is
    [with Popen(...) as p: return p.wait()].)  A failed start raises. *)
Definition subprocess_call (argv : list string) (flags : Z) : M Z :=
  fun w =>
    match launch w argv with
    | LaunchRaises e => (Raise e, w, [EvSpawnFailed argv e])
    | LaunchRuns p =>
        (Ok (returncode p), after_exit p w,
         [EvSpawn argv flags; EvChildExit argv (returncode p)])
    end.

(** [subprocess.Popen(argv, cwd=..., stdout=PIPE, stderr=STDOUT, ...)]:
    start the program and return the handle without waiting. *)
Definition subprocess_Popen (argv : list string) (cwd : string)
           (startupinfo : option Z) (flags : Z) : M Process :=
  fun w =>
    match launch w argv with
    | LaunchRaises e => (Raise e, w, [EvPopenFailed argv e])
    | LaunchRuns p => (Ok p, w, [EvPopen argv cwd startupinfo flags])
    end.

(** [process.wait()]. *)
Definition process_wait (argv : list string) (p : Process) : M unit :=
  fun w => (Ok tt, after_exit p w, [EvChildExit argv (returncode p)]).

Definition newline : string := String (ascii_of_nat 10) "".

Definition STARTF_USESHOWWINDOW : Z := 1.
Definition CREATE_NO_WINDOW : Z := 134217728.


(** ** The tool locator (lines 9-145) *)

Section Program.
Context {os_path : OsPath}.

(** [_app_base_dir()]. *)
Definition _app_base_dir : M string :=
  frozen <- ask sys_frozen ;;
  if frozen then
    exe <- ask sys_executable ;;
    ret (path_dirname exe)
  else
    f <- ask file_abspath ;;
    ret (path_dirname f).

(** [_find_ffmpeg_binary()]. *)
Definition _find_ffmpeg_binary : M (option string) :=
  base_dir <- _app_base_dir ;;
  name <- ask os_name ;;
  let exe_name := if name =? "nt" then "ffmpeg.exe" else "ffmpeg" in
  let local_path := path_join base_dir exe_name in
  is_local <- os_path_isfile local_path ;;
  if is_local then ret (Some local_path)
  else
    path_ffmpeg <- shutil_which "ffmpeg" ;;
    if PyStr.truthy_opt path_ffmpeg then ret path_ffmpeg
    else ret None.

(** [if parent is not None: QMessageBox.critical(parent, title, ...)]. *)
Definition critical_if_parent (parent : bool) (title : string) : M unit :=
  if parent then (message_box Critical title ;; ret tt) else ret tt.

(** [_install_ffmpeg_windows(parent, installer_path)]. *)
Definition _install_ffmpeg_windows (parent : bool) (installer_path : string)
  : M bool :=
  reply <- (if parent then message_box Question "FFmpeg not found"
            else ret Yes) ;;
  if negb (button_eqb reply Yes) then ret false
  else
    try_except
      (attr <- ask CREATE_NEW_CONSOLE ;;
       let creationflags := match attr with Some v => v | None => 0%Z end in
       subprocess_call ["cmd"; "/c"; installer_path] creationflags ;;
       ret true)
      is_Exception
      (critical_if_parent parent "Installer error" ;;
       ret false).

(** [_install_ffmpeg_macos(parent)]. *)
Definition _install_ffmpeg_macos (parent : bool) : M bool :=
  brew_path <- shutil_which "brew" ;;
  match brew_path with
  | Some brew =>
      if PyStr.truthy brew then
        reply <- (if parent then message_box Question "Install FFmpeg"
                  else ret Yes) ;;
        if negb (button_eqb reply Yes) then ret false
        else
          try_except
            (subprocess_call [brew; "install"; "ffmpeg"] 0%Z ;;
             ret true)
            is_Exception
            (critical_if_parent parent "Install error" ;;
             ret false)
      else (critical_if_parent parent "Homebrew not found" ;; ret false)
  | None => critical_if_parent parent "Homebrew not found" ;; ret false
  end.

(** [ensure_ffmpeg(parent)]; [parent] says whether a parent widget was
    given. *)
Definition ensure_ffmpeg (parent : bool) : M (option string) :=
  ff <- _find_ffmpeg_binary ;;
  if PyStr.truthy_opt ff then ret ff
  else
    platform <- ask sys_platform ;;
    if PyStr.startswith "win" platform then
      base <- _app_base_dir ;;
      let installer := path_join base "ffmpeginstall.bat" in
      has_installer <- os_path_isfile installer ;;
      found <-
        (if has_installer then
           ok <- _install_ffmpeg_windows parent installer ;;
           if ok then _find_ffmpeg_binary else ret None
         else ret None) ;;
      if PyStr.truthy_opt found then ret found
      else (critical_if_parent parent "FFmpeg Missing" ;; ret None)
    else if platform =? "darwin" then
      ok <- _install_ffmpeg_macos parent ;;
      found <- (if ok then _find_ffmpeg_binary else ret None) ;;
      if PyStr.truthy_opt found then ret found
      else (critical_if_parent parent "FFmpeg not available" ;; ret None)
    else
      critical_if_parent parent "FFmpeg not available" ;; ret None.

(** ** The process runner ([FfmpegWorker], lines 149-190) *)

Record FfmpegWorker := {
  command : list string;
  workdir : string
}.

(** [for line in process.stdout: self.log_signal.emit(line)]. *)
Fixpoint emit_lines (lines : list string) : M unit :=
  match lines with
  | [] => ret tt
  | line :: rest => emit (EvLogSignal line) ;; emit_lines rest
  end.

(** [FfmpegWorker.run].  The [try] covers the launch only; a launch that
    went through yields the handle, a handled failure yields [None] after
    the two signals of the [except] block. *)
Definition run (self : FfmpegWorker) : M unit :=
  started <-
    try_except
      (name <- ask os_name ;;
       let startupinfo :=
         if name =? "nt" then Some (Z.lor 0 STARTF_USESHOWWINDOW) else None in
       let creationflags := if name =? "nt" then CREATE_NO_WINDOW else 0%Z in
       process <- subprocess_Popen (command self) (workdir self)
                                   startupinfo creationflags ;;
       ret (Some process))
      is_FileNotFoundError
      (emit (EvLogSignal
               ("ERROR: ffmpeg execution failed. Check installation." ++ newline)) ;;
       emit (EvFinishedSignal false) ;;
       ret None) ;;
  match started with
  | None => ret tt
  | Some process =>
      emit_lines (stdout_lines process) ;;
      process_wait (command self) process ;;
      emit (EvFinishedSignal (returncode process =? 0)%Z)
  end.

(** ** The conversion entry point ([RetroWindow.start_convert]) *)

(** The part of the window the entry point reads. *)
Record RetroWindow := {
  input_path : string;
  output_dir : string;
  format_text : string;      (* format_combo.currentText() *)
  quality_text : string;     (* quality_combo.currentText() *)
  normalize_checked : bool;  (* normalize_box.isChecked() *)
  strip_subs_checked : bool  (* strip_subs_box.isChecked() *)
}.

(** [RetroWindow.start_convert]: returns the worker it has created and
    started on a new thread, or [None] when it returned early. *)
Definition start_convert (self : RetroWindow) : M (option FfmpegWorker) :=
  if negb (PyStr.truthy (input_path self)) then
    message_box Warning "No input" ;; ret None
  else
    dir_ok <- os_path_isdir (output_dir self) ;;
    if negb dir_ok then
      message_box Warning "Invalid output" ;; ret None
    else
      located <- ensure_ffmpeg true ;;
      match located with
      | None => ret None
      | Some ffmpeg_path =>
          if negb (PyStr.truthy ffmpeg_path) then ret None
          else
            let cmd := build_cmd ffmpeg_path (input_path self) (output_dir self)
                                 (format_text self) (quality_text self)
                                 (normalize_checked self)
                                 (strip_subs_checked self) in
            emit (EvAppendLog ("=== Starting conversion ===" ++ newline)) ;;
            emit (EvAppendLog ("CMD: " ++ PyStr.str_join " " cmd ++ newline)) ;;
            emit (EvSetBusy true) ;;
            let worker := {| command := cmd; workdir := output_dir self |} in
            emit (EvThreadStart cmd (output_dir self)) ;;
            ret (Some worker)
      end.

(** One click on CONVERT, followed to the end of the worker it may have
    started. *)
Definition convert (self : RetroWindow) : M unit :=
  started <- start_convert self ;;
  match started with
  | None => ret tt
  | Some worker => run worker
  end.

End Program.

(** ** Delivery of the worker's signals to the interactive thread

    The worker lives on its own thread and both of its signals are connected
    to slots of the window, so every emission is posted to the event queue of
    the interactive thread and dispatched from there: one producer, one
    consumer, first in first out.  The two threads interleave freely. *)

Definition is_signal (e : Event) : bool :=
  match e with
  | EvLogSignal _ | EvFinishedSignal _ => true
  | _ => false
  end.

Definition is_child_exit (e : Event) : bool :=
  match e with
  | EvChildExit _ _ => true
  | _ => false
  end.

Record Delivery := {
  todo : list Event;        (* what the worker has still to do *)
  queued : list Event;      (* posted and not yet dispatched *)
  delivered : list Event;   (* received by the listener, oldest first *)
  child_exited : bool       (* the worker has seen the child exit *)
}.

Inductive Actor := WorkerThread | InteractiveThread.

Definition deliver_step (a : Actor) (s : Delivery) : Delivery :=
  match a with
  | WorkerThread =>
      match todo s with
      | [] => s
      | e :: rest =>
          {| todo := rest;
             queued := if is_signal e then queued s ++ [e] else queued s;
             delivered := delivered s;
             child_exited := child_exited s || is_child_exit e |}
      end
  | InteractiveThread =>
      match queued s with
      | [] => s
      | e :: q =>
          {| todo := todo s;
             queued := q;
             delivered := delivered s ++ [e];
             child_exited := child_exited s |}
      end
  end.

Definition schedule (sched : list Actor) (s : Delivery) : Delivery :=
  fold_left (fun st a => deliver_step a st) sched s.

Definition start_delivery (t : list Event) : Delivery :=
  {| todo := t; queued := []; delivered := []; child_exited := false |}.

(** ** The table of section 4.2, as the specification words it *)

Inductive RateArg :=
| NoRate
| Bitrate (high balanced smaller : string)
| QualityLevel (high balanced smaller : string).

Definition spec_table : list (string * (string * RateArg)) :=
  [ ("mp3",  ("libmp3lame", Bitrate "320k" "192k" "128k"));
    ("opus", ("libopus",    Bitrate "160k" "128k" "64k"));
    ("wav",  ("pcm_s16le",  NoRate));
    ("flac", ("flac",       NoRate));
    ("m4a",  ("aac",        Bitrate "256k" "192k" "192k"));
    ("aac",  ("aac",        Bitrate "256k" "192k" "192k"));
    ("ogg",  ("libvorbis",  QualityLevel "6" "4" "4"));
    ("wma",  ("wmav2",      Bitrate "192k" "192k" "192k")) ].

Fixpoint spec_row (format : string) (l : list (string * (string * RateArg)))
  : option (string * RateArg) :=
  match l with
  | [] => None
  | (k, v) :: r => if k =? format then Some v else spec_row format r
  end.

Definition pick_preset (quality high balanced smaller : string) : string :=
  if quality =? "High quality" then high
  else if quality =? "Balanced" then balanced
  else smaller.

Definition spec_args (format quality : string) : option (list string) :=
  match spec_row format spec_table with
  | None => None
  | Some (codec, rate) =>
      Some (["-c:a"; codec] ++
            match rate with
            | NoRate => []
            | Bitrate h b s => ["-b:a"; pick_preset quality h b s]
            | QualityLevel h b s => ["-q:a"; pick_preset quality h b s]
            end)
  end.

(** The output path as the specification spells it:
    [{output_directory}/{input_basename_without_extension}.{target_format}]. *)
Definition spec_out_path {os_path : OsPath} (in_path output_dir ext : string)
  : string :=
  output_dir ++ "/" ++ base_name in_path ++ "." ++ ext.

(** The arguments of a command between the five leading ones and the
    output path. *)
Definition option_segment (cmd : list string) : list string :=
  removelast (skipn 5 cmd).

Import Posixpath.

(** ** Vocabulary for the statements *)

(** Events only the conversion itself produces: the log and busy updates of
    the entry point, the start of the worker thread, the worker's launch
    attempt and its signals. *)
Definition is_runner_event (e : Event) : bool :=
  match e with
  | EvPopen _ _ _ _ | EvPopenFailed _ _ | EvThreadStart _ _
  | EvLogSignal _ | EvFinishedSignal _
  | EvAppendLog _ | EvSetBusy _ => true
  | _ => false
  end.

Definition is_finished_signal (e : Event) : bool :=
  match e with
  | EvFinishedSignal _ => true
  | _ => false
  end.

Definition is_launch_attempt (e : Event) : bool :=
  match e with
  | EvPopen _ _ _ _ | EvPopenFailed _ _ => true
  | _ => false
  end.

Definition is_probe (e : Event) : bool :=
  match e with
  | EvIsFile _ _ | EvWhich _ _ => true
  | _ => false
  end.

(** The value [_app_base_dir()] has in a world. *)
Definition app_base_dir_of {os_path : OsPath} (w : World) : string :=
  if sys_frozen w then path_dirname (sys_executable w)
  else path_dirname (file_abspath w).

(** The events that follow the first start of a child by [subprocess.call]. *)
Fixpoint after_spawn (t : list Event) : option (list Event) :=
  match t with
  | [] => None
  | EvSpawn _ _ :: r => Some r
  | _ :: r => after_spawn r
  end.

(** Does a probe of the file system or of the search path come before the
    exit of the child that was started?  This is what "the re-probe does not
    wait for the installer to finish" says of a trace. *)
Fixpoint probe_before_exit (t : list Event) : bool :=
  match t with
  | [] => false
  | EvChildExit _ _ :: _ => false
  | e :: r => is_probe e || probe_before_exit r
  end.

Definition reprobes_without_waiting (t : list Event) : bool :=
  match after_spawn t with
  | Some r => probe_before_exit r
  | None => false
  end.

Fixpoint argv_eqb (a b : list string) : bool :=
  match a, b with
  | [], [] => true
  | x :: a', y :: b' => (x =? y) && argv_eqb a' b'
  | _, _ => false
  end.

Definition not_runner (e : Event) : bool := negb (is_runner_event e).

(** [m] produces no event of the conversion itself. *)
Definition silent {A} (m : M A) : Prop :=
  forall w, forallb not_runner (trace_of (m w)) = true.

(** [m] returns normally in every world. *)
Definition total {A} (m : M A) : Prop :=
  forall w, exists a, result_of (m w) = Ok a.

Create HintDb silent.
Create HintDb total.

(** Whatever [m] returns normally satisfies [P]. *)
Definition returns_only {A} (P : A -> Prop) (m : M A) : Prop :=
  forall w a, result_of (m w) = Ok a -> P a.

(** What holds of every state of the delivery of a trace [t]: the worker has
    gone through a prefix [past] of [t], the signals of that prefix are
    exactly what was delivered followed by what is queued, and the flag
    tells whether that prefix holds the exit of the child. *)
Definition delivery_inv (t : list Event) (s : Delivery) : Prop :=
  exists past,
    t = past ++ todo s
    /\ delivered s ++ queued s = filter is_signal past
    /\ child_exited s = existsb is_child_exit past.

(** The worker [start_convert] creates once the tool path [ff] is known,
    and the four events that lead to its start. *)
Definition worker_of {os_path : OsPath} (self : RetroWindow) (ff : string)
  : FfmpegWorker :=
  {| command := build_cmd ff (input_path self) (output_dir self)
                          (format_text self) (quality_text self)
                          (normalize_checked self) (strip_subs_checked self);
     workdir := output_dir self |}.

Definition start_events {os_path : OsPath} (self : RetroWindow) (ff : string)
  : list Event :=
  [EvAppendLog ("=== Starting conversion ===" ++ newline);
   EvAppendLog ("CMD: " ++ PyStr.str_join " " (command (worker_of self ff))
                        ++ newline);
   EvSetBusy true;
   EvThreadStart (command (worker_of self ff)) (output_dir self)].

(** ** Concrete worlds *)

(** A Linux host with ffmpeg on the search path; the input file of the
    window below is absent, and a file already sits at the output path. *)
Definition linux_world : World :=
  {| os_name := "posix";
     sys_platform := "linux";
     sys_frozen := false;
     sys_executable := "/usr/bin/python3";
     file_abspath := "/opt/app/main.py";
     CREATE_NEW_CONSOLE := None;
     files := ["/usr/bin/ffmpeg"; "/out/song.mp3"];
     dirs := ["/out"; "/"];
     search_path := [("ffmpeg", "/usr/bin/ffmpeg")];
     user_reply := fun _ => No;
     launch := fun argv =>
       if (hd "" argv =? "/usr/bin/ffmpeg")%string then
         LaunchRuns {| stdout_lines :=
                         [("ffmpeg version 6.0" ++ newline)%string;
                          ("/x/song.mov: No such file or directory"
                             ++ newline)%string];
                       returncode := 1;
                       creates_files := [];
                       adds_to_path := [] |}
       else LaunchRaises FileNotFoundError |}.

Definition song_window : RetroWindow :=
  {| input_path := "/x/song.mov";
     output_dir := "/out";
     format_text := "mp3";
     quality_text := "Balanced";
     normalize_checked := true;
     strip_subs_checked := false |}.

(** A Linux host without ffmpeg anywhere. *)
Definition bare_linux_world : World :=
  {| os_name := "posix";
     sys_platform := "linux";
     sys_frozen := false;
     sys_executable := "/usr/bin/python3";
     file_abspath := "/opt/app/main.py";
     CREATE_NEW_CONSOLE := None;
     files := ["/x/song.mov"];
     dirs := ["/out"];
     search_path := [];
     user_reply := fun _ => No;
     launch := fun _ => LaunchRaises FileNotFoundError |}.

(** A host where a file named ffmpeg sits next to the application but may
    not be executed: [os.path.isfile] accepts it, starting it is refused. *)
Definition unexecutable_world : World :=
  {| os_name := "posix";
     sys_platform := "linux";
     sys_frozen := false;
     sys_executable := "/usr/bin/python3";
     file_abspath := "/opt/app/main.py";
     CREATE_NEW_CONSOLE := None;
     files := ["/opt/app/ffmpeg"; "/x/song.mov"];
     dirs := ["/out"];
     search_path := [];
     user_reply := fun _ => No;
     launch := fun argv =>
       if (hd "" argv =? "/opt/app/ffmpeg")%string
       then LaunchRaises PermissionError
       else LaunchRaises FileNotFoundError |}.

(** A Windows host without ffmpeg, with the installer script next to the
    application; the user agrees, and the script has put [ffmpeg.exe] next
    to the application by the time it exits. *)
Definition windows_world : World :=
  {| os_name := "nt";
     sys_platform := "win32";
     sys_frozen := true;
     sys_executable := "C:/app/converter.exe";
     file_abspath := "C:/app/main.py";
     CREATE_NEW_CONSOLE := Some 16%Z;
     files := ["C:/app/ffmpeginstall.bat"];
     dirs := ["C:/out"];
     search_path := [];
     user_reply := fun _ => Yes;
     launch := fun argv =>
       if argv_eqb argv ["cmd"; "/c"; "C:/app/ffmpeginstall.bat"] then
         LaunchRuns {| stdout_lines := [];
                       returncode := 0;
                       creates_files := ["C:/app/ffmpeg.exe"];
                       adds_to_path := [] |}
       else LaunchRaises FileNotFoundError |}.

(** The same window with the root directory as output directory. *)
Definition root_window : RetroWindow :=
  {| input_path := "/x/song.mov";
     output_dir := "/";
     format_text := "mp3";
     quality_text := "Balanced";
     normalize_checked := true;
     strip_subs_checked := false |}.

(** One interleaving of the worker with the interactive thread. *)
Definition mixed_schedule : list Actor :=
  [WorkerThread; WorkerThread; InteractiveThread; WorkerThread;
   InteractiveThread; WorkerThread; WorkerThread; InteractiveThread].

(** The process that [linux_world] starts for ffmpeg. *)
Definition failing_ffmpeg : Process :=
  {| stdout_lines :=
       [("ffmpeg version 6.0" ++ newline)%string;
        ("/x/song.mov: No such file or directory" ++ newline)%string];
     returncode := 1;
     creates_files := [];
     adds_to_path := [] |}.

(** The process that [windows_world] starts for the installer script. *)
Definition installer_process : Process :=
  {| stdout_lines := [];
     returncode := 0;
     creates_files := ["C:/app/ffmpeg.exe"];
     adds_to_path := [] |}.

Definition ffmpeg_worker : FfmpegWorker :=
  {| command := build_cmd "/usr/bin/ffmpeg" "/x/song.mov" "/out" "mp3"
                          "Balanced" true false;
     workdir := "/out" |}.

Definition bundled_worker : FfmpegWorker :=
  {| command := build_cmd "/opt/app/ffmpeg" "/x/song.mov" "/out" "mp3"
                          "Balanced" true false;
     workdir := "/out" |}.

(** ** [int(...)] and [str(...)] on the counter label

    [int] of a string, for ASCII strings: surrounding whitespace is
    stripped, one sign is allowed, then decimal digits with single
    underscores between them; anything else is a [ValueError], here [None].
    [str] of an integer is its decimal writing.  The digit limit of recent
    interpreters (4300 digits by default) is not modelled. *)

Module PyInt.

(** The ASCII characters [int] strips: tab to carriage return, and the
    space. *)
Definition is_space (c : ascii) : bool :=
  let n := nat_of_ascii c in
  ((9 <=? n)%nat && (n <=? 13)%nat) || (n =? 32)%nat.

Fixpoint lstrip (s : string) : string :=
  match s with
  | EmptyString => EmptyString
  | String c r => if is_space c then lstrip r else s
  end.

Fixpoint rstrip (s : string) : string :=
  match s with
  | EmptyString => EmptyString
  | String c r =>
      match rstrip r with
      | EmptyString => if is_space c then EmptyString else String c EmptyString
      | r' => String c r'
      end
  end.

Definition strip (s : string) : string := rstrip (lstrip s).

Definition digit_value (c : ascii) : option Z :=
  let n := nat_of_ascii c in
  if (48 <=? n)%nat && (n <=? 57)%nat then Some (Z.of_nat (n - 48)) else None.

(** The digits with their underscores; [after_digit] says whether the
    character just read was a digit. *)
Fixpoint digits (acc : Z) (after_digit : bool) (s : string) : option Z :=
  match s with
  | EmptyString => if after_digit then Some acc else None
  | String c r =>
      match digit_value c with
      | Some d => digits (10 * acc + d)%Z true r
      | None =>
          if Ascii.eqb c "_" && after_digit then digits acc false r else None
      end
  end.

(** [int(s)]. *)
Definition int (s : string) : option Z :=
  match strip s with
  | EmptyString => None
  | String c r =>
      if Ascii.eqb c "+" then digits 0 false r
      else if Ascii.eqb c "-" then option_map Z.opp (digits 0 false r)
      else digits 0 false (String c r)
  end.

(** [str(n)]. *)
Definition str (n : Z) : string := NilEmpty.string_of_int (Z.to_int n).

(** The value of a decimal numeral read from the left, starting from [acc]. *)
Fixpoint uint_value (acc : Z) (d : Decimal.uint) : Z :=
  match d with
  | Decimal.Nil => acc
  | Decimal.D0 l => uint_value (10 * acc + 0) l
  | Decimal.D1 l => uint_value (10 * acc + 1) l
  | Decimal.D2 l => uint_value (10 * acc + 2) l
  | Decimal.D3 l => uint_value (10 * acc + 3) l
  | Decimal.D4 l => uint_value (10 * acc + 4) l
  | Decimal.D5 l => uint_value (10 * acc + 5) l
  | Decimal.D6 l => uint_value (10 * acc + 6) l
  | Decimal.D7 l => uint_value (10 * acc + 7) l
  | Decimal.D8 l => uint_value (10 * acc + 8) l
  | Decimal.D9 l => uint_value (10 * acc + 9) l
  end.

(** No character of [s] is whitespace. *)
Fixpoint no_space (s : string) : bool :=
  match s with
  | EmptyString => true
  | String c r => negb (is_space c) && no_space r
  end.

End PyInt.

(** ** The window ([RetroWindow], lines 224-517)

    The widgets a method reads or writes, next to the fields the entry point
    reads.  The log view holds the texts appended to it, oldest first; the
    position of its scroll bar is not kept. *)

Record Gui := {
  fields : RetroWindow;
  file_display : string;
  output_display : string;
  big_label : string;
  sub_label : string;
  convert_enabled : bool;
  cancel_enabled : bool;
  log_view : list string
}.

(** The window after [__init__], with [home] for [os.path.expanduser("~")]. *)
Definition initial_gui (home : string) : Gui :=
  {| fields := {| input_path := "";
                  output_dir := home;
                  format_text := "mp3";
                  quality_text := "Balanced";
                  normalize_checked := true;
                  strip_subs_checked := false |};
     file_display := "";
     output_display := home;
     big_label := "No files Converted";
     sub_label := "Pick a file. Pick a format. Convert it using ffmpeg.";
     convert_enabled := true;
     cancel_enabled := true;
     log_view := [] |}.

(** [RetroWindow.append_log(text)]. *)
Definition append_log (text : string) (g : Gui) : Gui :=
  {| fields := fields g;
     file_display := file_display g;
     output_display := output_display g;
     big_label := big_label g;
     sub_label := sub_label g;
     convert_enabled := convert_enabled g;
     cancel_enabled := cancel_enabled g;
     log_view := log_view g ++ [text] |}.

(** [RetroWindow.set_busy(busy)]. *)
Definition set_busy (busy : bool) (g : Gui) : Gui :=
  {| fields := fields g;
     file_display := file_display g;
     output_display := output_display g;
     big_label := big_label g;
     sub_label :=
       if busy
       then "Converting... don’t close this or i will come to your house."
       else "Pick a file. Pick a format. Convert it with ffmpeg.";
     convert_enabled := negb busy;
     cancel_enabled := busy;
     log_view := log_view g |}.

Definition set_sub_label (text : string) (g : Gui) : Gui :=
  {| fields := fields g;
     file_display := file_display g;
     output_display := output_display g;
     big_label := big_label g;
     sub_label := text;
     convert_enabled := convert_enabled g;
     cancel_enabled := cancel_enabled g;
     log_view := log_view g |}.

Definition set_big_label (text : string) (g : Gui) : Gui :=
  {| fields := fields g;
     file_display := file_display g;
     output_display := output_display g;
     big_label := text;
     sub_label := sub_label g;
     convert_enabled := convert_enabled g;
     cancel_enabled := cancel_enabled g;
     log_view := log_view g |}.

Definition set_fields (f : RetroWindow) (g : Gui) : Gui :=
  {| fields := f;
     file_display := file_display g;
     output_display := output_display g;
     big_label := big_label g;
     sub_label := sub_label g;
     convert_enabled := convert_enabled g;
     cancel_enabled := cancel_enabled g;
     log_view := log_view g |}.

(** [RetroWindow.pick_file()], with [path] what the file dialog returned
    (the empty string when it was dismissed). *)
Definition pick_file (path : string) (g : Gui) : Gui :=
  if PyStr.truthy path then
    let f := fields g in
    let g1 := set_fields {| input_path := path;
                            output_dir := output_dir f;
                            format_text := format_text f;
                            quality_text := quality_text f;
                            normalize_checked := normalize_checked f;
                            strip_subs_checked := strip_subs_checked f |} g in
    let g2 := {| fields := fields g1;
                 file_display := path;
                 output_display := output_display g1;
                 big_label := big_label g1;
                 sub_label := sub_label g1;
                 convert_enabled := convert_enabled g1;
                 cancel_enabled := cancel_enabled g1;
                 log_view := log_view g1 |} in
    append_log ("INPUT: " ++ path ++ newline) g2
  else g.

(** [RetroWindow.pick_output_folder()], with [folder] what the directory
    dialog returned. *)
Definition pick_output_folder (folder : string) (g : Gui) : Gui :=
  if PyStr.truthy folder then
    let f := fields g in
    let g1 := set_fields {| input_path := input_path f;
                            output_dir := folder;
                            format_text := format_text f;
                            quality_text := quality_text f;
                            normalize_checked := normalize_checked f;
                            strip_subs_checked := strip_subs_checked f |} g in
    let g2 := {| fields := fields g1;
                 file_display := file_display g1;
                 output_display := folder;
                 big_label := big_label g1;
                 sub_label := sub_label g1;
                 convert_enabled := convert_enabled g1;
                 cancel_enabled := cancel_enabled g1;
                 log_view := log_view g1 |} in
    append_log ("OUTPUT DIR: " ++ folder ++ newline) g2
  else g.

(** [RetroWindow.on_convert_finished(ok)]. *)
Definition on_convert_finished (ok : bool) (g : Gui) : Gui :=
  let g := set_busy false g in
  if ok then
    let g := append_log
               (newline ++ "=== Conversion finished successfully ===" ++ newline)
               g in
    let g := set_sub_label
               "File converted. You’re one step closer to audio supremacy." g in
    match PyInt.int (big_label g) with
    | Some current => set_big_label (PyInt.str (current + 1)) g
    | None => set_big_label "1" g
    end
  else
    let g := append_log
               (newline ++ "=== Conversion NOT WORKING BHAI ===" ++ newline) g in
    set_sub_label "Conversion NOT WORKING BHAI. Check the log for details." g.

(** [RetroWindow.cancel_convert()]: an information box and nothing else. *)
Definition cancel_convert : M unit :=
  message_box Information "Cancel" ;; ret tt.

(** What an event does to the window: the entry point's own calls of
    [append_log] and [set_busy], and the two slots the worker's signals
    are connected to (lines 493-494). *)
Definition apply_event (g : Gui) (e : Event) : Gui :=
  match e with
  | EvAppendLog text => append_log text g
  | EvSetBusy busy => set_busy busy g
  | EvLogSignal text => append_log text g
  | EvFinishedSignal ok => on_convert_finished ok g
  | _ => g
  end.

Definition gui_after (t : list Event) (g : Gui) : Gui :=
  fold_left apply_event t g.

(** What the user does with the window.  A click on CONVERT does nothing
    while the button is disabled. *)
Inductive UserAction :=
| Browse (path : string)
| ChangeFolder (folder : string)
| SelectFormat (text : string)
| SelectQuality (text : string)
| CheckNormalize (checked : bool)
| CheckStripSubs (checked : bool)
| ClickCancel
| ClickConvert.

Definition select (a : UserAction) (f : RetroWindow) : RetroWindow :=
  {| input_path := input_path f;
     output_dir := output_dir f;
     format_text := match a with SelectFormat t => t | _ => format_text f end;
     quality_text := match a with SelectQuality t => t | _ => quality_text f end;
     normalize_checked :=
       match a with CheckNormalize b => b | _ => normalize_checked f end;
     strip_subs_checked :=
       match a with CheckStripSubs b => b | _ => strip_subs_checked f end |}.

(** One action: the window and the world after it, and the events it
    produced.  A click on CONVERT is followed here to the end of the worker
    it starts, with nothing else happening meanwhile; what the user does
    while a worker runs is the subject of [click_interleaved] below. *)
Definition user_step {os_path : OsPath} (a : UserAction) (g : Gui) (w : World)
  : Gui * World * list Event :=
  match a with
  | Browse path => (pick_file path g, w, [])
  | ChangeFolder folder => (pick_output_folder folder g, w, [])
  | ClickCancel => (g, world_of (cancel_convert w), trace_of (cancel_convert w))
  | ClickConvert =>
      if convert_enabled g then
        let x := convert (fields g) w in
        (gui_after (trace_of x) g, world_of x, trace_of x)
      else (g, w, [])
  | _ => (set_fields (select a (fields g)) g, w, [])
  end.

(** A whole session, action after action, with all its events. *)
Fixpoint session {os_path : OsPath} (actions : list UserAction)
         (g : Gui) (w : World) : Gui * World * list Event :=
  match actions with
  | [] => (g, w, [])
  | a :: rest =>
      match user_step a g w with
      | (g1, w1, t1) =>
          match session rest g1 w1 with
          | (g2, w2, t2) => (g2, w2, t1 ++ t2)
          end
      end
  end.

(** The counter label after [n] successful conversions. *)
Definition counter_label (n : nat) : string :=
  match n with
  | O => "No files Converted"
  | S _ => PyInt.str (Z.of_nat n)
  end.

(** How many finished signals of a trace report success. *)
Definition successes (t : list Event) : nat :=
  List.length (filter (fun e => match e with
                                | EvFinishedSignal true => true
                                | _ => false
                                end) t).

(** What the window shows is what the conversion will use. *)
Definition shows_its_fields (g : Gui) : Prop :=
  file_display g = input_path (fields g)
  /\ output_display g = output_dir (fields g).

(** The last event of a trace is a critical message box. *)
Definition ends_with_critical (t : list Event) : bool :=
  match rev t with
  | EvDialog Critical _ :: _ => true
  | _ => false
  end.

(** [m] produces only events that satisfy [P]. *)
Definition emits_only {A} (P : Event -> bool) (m : M A) : Prop :=
  forall w, forallb P (trace_of (m w)) = true.

(** The line [on_convert_finished] appends to the log. *)
Definition verdict_line (ok : bool) : string :=
  if ok
  then newline ++ "=== Conversion finished successfully ===" ++ newline
  else newline ++ "=== Conversion NOT WORKING BHAI ===" ++ newline.

(** [c not in s]. *)
Fixpoint absent_char (c : ascii) (s : string) : bool :=
  match s with
  | EmptyString => true
  | String a r => negb (Ascii.eqb a c) && absent_char c r
  end.

(** ** A click with the user at work meanwhile

    [start_convert] runs on the interactive thread and returns once the
    worker thread is started; from then on the worker's signals reach the
    window one by one, and between two of them the user may go on using
    the window: BROWSE and CHANGE stay enabled. *)

Inductive Happening :=
| Delivered (e : Event)        (* the next event of the worker reaches the window *)
| Meanwhile (a : UserAction).  (* the user does something in between *)

Definition happen {os_path : OsPath} (w : World) (g : Gui) (h : Happening)
  : Gui :=
  match h with
  | Delivered e => apply_event g e
  | Meanwhile a => fst (fst (user_step a g w))
  end.

(** The window after a click on CONVERT followed by the happenings of
    [sched], in that order. *)
Definition click_interleaved {os_path : OsPath} (sched : list Happening)
           (g : Gui) (w : World) : Gui :=
  let x := start_convert (fields g) w in
  fold_left (happen (world_of x)) sched (gui_after (trace_of x) g).

(** The events of a schedule that come from the worker, in order. *)
Definition deliveries (sched : list Happening) : list Event :=
  flat_map (fun h => match h with Delivered e => [e] | Meanwhile _ => [] end)
           sched.

(** The lines the user's own actions of a schedule append to the log. *)
Definition user_lines (sched : list Happening) : list string :=
  flat_map (fun h =>
              match h with
              | Meanwhile (Browse path) =>
                  if PyStr.truthy path
                  then [("INPUT: " ++ path ++ newline)%string] else []
              | Meanwhile (ChangeFolder folder) =>
                  if PyStr.truthy folder
                  then [("OUTPUT DIR: " ++ folder ++ newline)%string] else []
              | _ => []
              end)
           sched.

(** The texts of the log signals among some events, in order. *)
Definition log_signal_texts (t : list Event) : list string :=
  flat_map (fun e => match e with EvLogSignal text => [text] | _ => [] end) t.

(** Events that neither end the busy state nor come from the entry point. *)
Definition is_calm (e : Event) : bool :=
  match e with
  | EvFinishedSignal _ | EvSetBusy _ | EvAppendLog _ => false
  | _ => true
  end.

(** [l] is [l1] and [l2] shuffled together, each keeping its order. *)
Inductive Interleave {A : Type} : list A -> list A -> list A -> Prop :=
| interleave_nil : Interleave [] [] []
| interleave_left (x : A) (l1 l2 l : list A) :
    Interleave l1 l2 l -> Interleave (x :: l1) l2 (x :: l)
| interleave_right (x : A) (l1 l2 l : list A) :
    Interleave l1 l2 l -> Interleave l1 (x :: l2) (x :: l).

(** A schedule for [working_world]: the user picks another file and
    another folder while the worker runs. *)
Definition busy_schedule : list Happening :=
  [Delivered (EvPopen (command (worker_of song_window "/usr/bin/ffmpeg"))
                      "/out" None 0);
   Meanwhile (Browse "/x/next.mov");
   Delivered (EvLogSignal ("size=    1024kB time=00:01:00.00" ++ newline));
   Meanwhile ClickConvert;
   Meanwhile (ChangeFolder "/home/user");
   Delivered (EvChildExit (command (worker_of song_window "/usr/bin/ffmpeg")) 0);
   Delivered (EvFinishedSignal true)].

(** ** More vocabulary *)

Definition is_spawn_attempt (e : Event) : bool :=
  match e with
  | EvSpawn _ _ | EvSpawnFailed _ _ => true
  | _ => false
  end.


Definition is_critical (e : Event) : bool :=
  match e with
  | EvDialog Critical _ => true
  | _ => false
  end.

Definition is_which (e : Event) : bool :=
  match e with
  | EvWhich _ _ => true
  | _ => false
  end.

(** The path of the bundled copy [_find_ffmpeg_binary] looks at first. *)
Definition local_ffmpeg_path {os_path : OsPath} (w : World) : string :=
  path_join (app_base_dir_of w)
            (if os_name w =? "nt" then "ffmpeg.exe" else "ffmpeg").

(** A macOS host with Homebrew and without ffmpeg; the user agrees, and
    [brew install ffmpeg] has put ffmpeg on the search path by the time it
    exits. *)
Definition brew_process : Process :=
  {| stdout_lines := [];
     returncode := 0;
     creates_files := ["/opt/homebrew/bin/ffmpeg"];
     adds_to_path := [("ffmpeg", "/opt/homebrew/bin/ffmpeg")] |}.

Definition macos_world : World :=
  {| os_name := "posix";
     sys_platform := "darwin";
     sys_frozen := false;
     sys_executable := "/usr/bin/python3";
     file_abspath := "/Applications/conv/main.py";
     CREATE_NEW_CONSOLE := None;
     files := ["/x/song.mov"];
     dirs := ["/out"];
     search_path := [("brew", "/opt/homebrew/bin/brew")];
     user_reply := fun _ => Yes;
     launch := fun argv =>
       if argv_eqb argv ["/opt/homebrew/bin/brew"; "install"; "ffmpeg"]
       then LaunchRuns brew_process
       else LaunchRaises FileNotFoundError |}.

(** A Linux host where ffmpeg converts the file and exits with status 0. *)
Definition working_ffmpeg : Process :=
  {| stdout_lines := [("size=    1024kB time=00:01:00.00" ++ newline)%string];
     returncode := 0;
     creates_files := ["/out/song.mp3"];
     adds_to_path := [] |}.

Definition working_world : World :=
  {| os_name := "posix";
     sys_platform := "linux";
     sys_frozen := false;
     sys_executable := "/usr/bin/python3";
     file_abspath := "/opt/app/main.py";
     CREATE_NEW_CONSOLE := None;
     files := ["/usr/bin/ffmpeg"; "/x/song.mov"];
     dirs := ["/out"; "/home/user"];
     search_path := [("ffmpeg", "/usr/bin/ffmpeg")];
     user_reply := fun _ => No;
     launch := fun argv =>
       if (hd "" argv =? "/usr/bin/ffmpeg")%string
       then LaunchRuns working_ffmpeg
       else LaunchRaises FileNotFoundError |}.

(** Every value [codec_args] can take. *)
Definition codec_args_values : list (list string) :=
  [ ["-c:a"; "libmp3lame"; "-b:a"; "320k"];
    ["-c:a"; "libmp3lame"; "-b:a"; "128k"];
    ["-c:a"; "libmp3lame"; "-b:a"; "192k"];
    ["-c:a"; "libopus"; "-b:a"; "160k"];
    ["-c:a"; "libopus"; "-b:a"; "64k"];
    ["-c:a"; "libopus"; "-b:a"; "128k"];
    ["-c:a"; "pcm_s16le"];
    ["-c:a"; "flac"];
    ["-c:a"; "aac"; "-b:a"; "256k"];
    ["-c:a"; "aac"; "-b:a"; "192k"];
    ["-c:a"; "libvorbis"; "-q:a"; "6"];
    ["-c:a"; "libvorbis"; "-q:a"; "4"];
    ["-c:a"; "wmav2"; "-b:a"; "192k"];
    [] ].

(** * Properties *)

(** ** The command builder on concrete inputs *)

Example out_path_song :
  out_path "/x/song.mov" "/out" "mp3" = "/out/song.mp3".
Proof. reflexivity. Qed.

Example splitext_hidden : splitext ".bashrc" = (".bashrc", "").
Proof. reflexivity. Qed.

Example splitext_two :
  splitext "a/b.c/song.tar.gz" = ("a/b.c/song.tar", ".gz").
Proof. reflexivity. Qed.

Example dirname_main : dirname "/opt/app/main.py" = "/opt/app".
Proof. reflexivity. Qed.

Example build_cmd_opus :
  build_cmd "/usr/bin/ffmpeg" "/x/song.mov" "/out" "opus" "Smaller file" true false
  = ["/usr/bin/ffmpeg"; "-y"; "-i"; "/x/song.mov"; "-vn"; "-c:a"; "libopus";
     "-b:a"; "64k"; "-af"; "loudnorm"; "/out/song.opus"].
Proof. reflexivity. Qed.

Example build_cmd_wav :
  build_cmd "/usr/bin/ffmpeg" "/x/song.mov" "/out" "wav" "High quality" false true
  = ["/usr/bin/ffmpeg"; "-y"; "-i"; "/x/song.mov"; "-vn"; "-c:a"; "pcm_s16le";
     "-sn"; "/out/song.wav"].
Proof. reflexivity. Qed.

(** ** Shape of a command *)

Section Shape.
Context {os_path : OsPath}.
Variables ffmpeg_path in_path output_dir ext quality : string.
Variables normalize strip_subs : bool.

Lemma build_cmd_shape :
  build_cmd ffmpeg_path in_path output_dir ext quality normalize strip_subs
  = [ffmpeg_path; "-y"; "-i"; in_path; "-vn"]
      ++ (codec_args ext quality ++ filter_args normalize strip_subs)
      ++ [out_path in_path output_dir ext].
Proof.
  unfold build_cmd, filter_args. cbn [app].
  repeat rewrite <- app_assoc. reflexivity.
Qed.

Lemma option_segment_build_cmd :
  option_segment
    (build_cmd ffmpeg_path in_path output_dir ext quality normalize strip_subs)
  = codec_args ext quality ++ filter_args normalize strip_subs.
Proof.
  rewrite build_cmd_shape. unfold option_segment. cbn [app skipn].
  apply removelast_last.
Qed.

End Shape.

Lemma codec_args_range (ext quality : string) :
  In (codec_args ext quality) codec_args_values.
Proof.
  unfold codec_args, PyStr.mem, existsb.
  repeat match goal with
         | |- context [if ?b then _ else _] => destruct b
         | |- context [(?a || ?b)%bool] => destruct a; cbn [orb]
         end;
    cbn; tauto.
Qed.

Lemma codec_args_no_token (tok ext quality : string) :
  Forall (fun v => count_occ string_dec v tok = 0) codec_args_values ->
  count_occ string_dec (codec_args ext quality) tok = 0.
Proof.
  intros H. rewrite Forall_forall in H. apply H, codec_args_range.
Qed.

(** C1. For every item of the format box and every item of the quality box
    the codec arguments the builder appends are those of the table of
    section 4.2, and they sit in the command right after the five leading
    arguments. *)
Theorem C1_codec_table
        {os_path : OsPath}
        (ffmpeg_path in_path output_dir format quality : string)
        (normalize strip_subs : bool) :
  In format format_items ->
  In quality quality_items ->
  spec_args format quality = Some (codec_args format quality)
  /\ build_cmd ffmpeg_path in_path output_dir format quality normalize strip_subs
     = [ffmpeg_path; "-y"; "-i"; in_path; "-vn"]
         ++ codec_args format quality
         ++ filter_args normalize strip_subs
         ++ [out_path in_path output_dir format].
Proof.
  intros Hf Hq. split.
  - cbn in Hf, Hq.
    repeat match goal with
           | H : _ \/ _ |- _ => destruct H as [H | H]
           | H : False |- _ => destruct H
           end; subst; reflexivity.
  - rewrite build_cmd_shape. rewrite <- app_assoc. reflexivity.
Qed.

Lemma C1_codec_table_witness :
  spec_args "opus" "Smaller file" = Some (codec_args "opus" "Smaller file")
  /\ build_cmd "/usr/bin/ffmpeg" "/x/song.mov" "/out" "opus" "Smaller file"
               true false
     = ["/usr/bin/ffmpeg"; "-y"; "-i"; "/x/song.mov"; "-vn"]
         ++ codec_args "opus" "Smaller file"
         ++ filter_args true false
         ++ [out_path "/x/song.mov" "/out" "opus"].
Proof.
  apply (C1_codec_table "/usr/bin/ffmpeg" "/x/song.mov" "/out" "opus"
                        "Smaller file" true false).
  - cbn. tauto.
  - cbn. tauto.
Defined.

(** The table, row by row, as the arguments themselves. *)
Lemma codec_args_rows :
  codec_args "mp3" "High quality" = ["-c:a"; "libmp3lame"; "-b:a"; "320k"]
  /\ codec_args "mp3" "Balanced" = ["-c:a"; "libmp3lame"; "-b:a"; "192k"]
  /\ codec_args "mp3" "Smaller file" = ["-c:a"; "libmp3lame"; "-b:a"; "128k"]
  /\ codec_args "opus" "High quality" = ["-c:a"; "libopus"; "-b:a"; "160k"]
  /\ codec_args "opus" "Balanced" = ["-c:a"; "libopus"; "-b:a"; "128k"]
  /\ codec_args "opus" "Smaller file" = ["-c:a"; "libopus"; "-b:a"; "64k"]
  /\ (forall q, codec_args "wav" q = ["-c:a"; "pcm_s16le"])
  /\ (forall q, codec_args "flac" q = ["-c:a"; "flac"])
  /\ codec_args "m4a" "High quality" = ["-c:a"; "aac"; "-b:a"; "256k"]
  /\ codec_args "m4a" "Balanced" = ["-c:a"; "aac"; "-b:a"; "192k"]
  /\ codec_args "m4a" "Smaller file" = ["-c:a"; "aac"; "-b:a"; "192k"]
  /\ codec_args "aac" "High quality" = ["-c:a"; "aac"; "-b:a"; "256k"]
  /\ codec_args "aac" "Balanced" = ["-c:a"; "aac"; "-b:a"; "192k"]
  /\ codec_args "aac" "Smaller file" = ["-c:a"; "aac"; "-b:a"; "192k"]
  /\ codec_args "ogg" "High quality" = ["-c:a"; "libvorbis"; "-q:a"; "6"]
  /\ codec_args "ogg" "Balanced" = ["-c:a"; "libvorbis"; "-q:a"; "4"]
  /\ codec_args "ogg" "Smaller file" = ["-c:a"; "libvorbis"; "-q:a"; "4"]
  /\ (forall q, codec_args "wma" q = ["-c:a"; "wmav2"; "-b:a"; "192k"]).
Proof. repeat split; reflexivity. Qed.

(** C6. Every command is the tool path, [-y], [-i], the input path, [-vn],
    then the codec and filter arguments, then the output path, whatever the
    format. *)
Theorem C6_fixed_structure
        {os_path : OsPath}
        (ffmpeg_path in_path output_dir ext quality : string)
        (normalize strip_subs : bool) :
  let cmd := build_cmd ffmpeg_path in_path output_dir ext quality
                       normalize strip_subs in
  cmd = [ffmpeg_path; "-y"; "-i"; in_path; "-vn"]
          ++ option_segment cmd
          ++ [out_path in_path output_dir ext]
  /\ option_segment cmd = codec_args ext quality ++ filter_args normalize strip_subs
  /\ nth_error cmd 0 = Some ffmpeg_path
  /\ nth_error cmd 1 = Some "-y"
  /\ nth_error cmd 2 = Some "-i"
  /\ nth_error cmd 3 = Some in_path
  /\ nth_error cmd 4 = Some "-vn"
  /\ last cmd "" = out_path in_path output_dir ext.
Proof.
  intros cmd. subst cmd.
  rewrite option_segment_build_cmd.
  rewrite build_cmd_shape.
  repeat split.
  rewrite app_assoc. apply last_last.
Qed.

(** C7. Apart from the three path arguments, a command holds [loudnorm]
    (and its [-af]) once when normalising is on and not at all when it is
    off, and holds [-sn] once exactly when subtitle stripping is on. *)
Theorem C7_toggles
        {os_path : OsPath}
        (ffmpeg_path in_path output_dir ext quality : string)
        (normalize strip_subs : bool) :
  let cmd := build_cmd ffmpeg_path in_path output_dir ext quality
                       normalize strip_subs in
  let paths := [ffmpeg_path; in_path; out_path in_path output_dir ext] in
  let n := if normalize then 1 else 0 in
  let s := if strip_subs then 1 else 0 in
  count_occ string_dec (option_segment cmd) "loudnorm" = n
  /\ count_occ string_dec (option_segment cmd) "-af" = n
  /\ (In "-sn" (option_segment cmd) <-> strip_subs = true)
  /\ count_occ string_dec cmd "loudnorm" = count_occ string_dec paths "loudnorm" + n
  /\ count_occ string_dec cmd "-af" = count_occ string_dec paths "-af" + n
  /\ count_occ string_dec cmd "-sn" = count_occ string_dec paths "-sn" + s.
Proof.
  intros cmd paths n s. subst cmd paths n s.
  rewrite option_segment_build_cmd.
  assert (Hl : count_occ string_dec (codec_args ext quality) "loudnorm" = 0)
    by (apply codec_args_no_token; repeat constructor).
  assert (Ha : count_occ string_dec (codec_args ext quality) "-af" = 0)
    by (apply codec_args_no_token; repeat constructor).
  assert (Hs : count_occ string_dec (codec_args ext quality) "-sn" = 0)
    by (apply codec_args_no_token; repeat constructor).
  assert (Hseg : forall tok,
             count_occ string_dec
               (build_cmd ffmpeg_path in_path output_dir ext quality
                          normalize strip_subs) tok
             = count_occ string_dec
                 [ffmpeg_path; in_path; out_path in_path output_dir ext] tok
               + count_occ string_dec ["-y"; "-i"; "-vn"] tok
               + count_occ string_dec (codec_args ext quality) tok
               + count_occ string_dec (filter_args normalize strip_subs) tok).
  { intros tok. rewrite build_cmd_shape.
    rewrite !count_occ_app. cbn [count_occ].
    repeat match goal with
           | |- context [string_dec ?a ?b] => destruct (string_dec a b)
           end; lia. }
  repeat split.
  - rewrite count_occ_app, Hl. destruct normalize, strip_subs; reflexivity.
  - rewrite count_occ_app, Ha. destruct normalize, strip_subs; reflexivity.
  - intros Hin. apply (count_occ_In string_dec) in Hin.
    rewrite count_occ_app, Hs in Hin.
    destruct strip_subs; [reflexivity |].
    destruct normalize; cbn in Hin; lia.
  - intros ->. apply (count_occ_In string_dec).
    rewrite count_occ_app, Hs. destruct normalize; cbn; lia.
  - rewrite Hseg, Hl. destruct normalize, strip_subs; cbn; lia.
  - rewrite Hseg, Ha. destruct normalize, strip_subs; cbn; lia.
  - rewrite Hseg, Hs. destruct normalize, strip_subs; cbn; lia.
Qed.

(** ** The output path under [posixpath] *)

Module PosixFacts.
Import PyStr.

Lemma rindex_drop (c : ascii) (s : string) :
  forall i, rindex c s = Some i -> rindex c (drop (S i) s) = None.
Proof.
  induction s as [| a r IH]; intros i H; cbn in H.
  - discriminate.
  - destruct (rindex c r) as [j |] eqn:E.
    + injection H as <-. cbn [drop]. apply IH. reflexivity.
    + destruct (Ascii.eqb a c); [| discriminate].
      injection H as <-. cbn [drop]. exact E.
Qed.

Lemma rindex_none_head (c a : ascii) (r : string) :
  rindex c (String a r) = None -> Ascii.eqb a c = false.
Proof.
  cbn. destruct (rindex c r); [discriminate |].
  destruct (Ascii.eqb a c); [discriminate | reflexivity].
Qed.

Lemma basename_no_sep (p : string) : rindex sep (basename p) = None.
Proof.
  unfold basename, rfind, slice_from.
  destruct (rindex sep p) as [i |] eqn:E.
  - replace (Z.to_nat (Z.of_nat i + 1)) with (S i) by lia.
    apply rindex_drop, E.
  - cbn. exact E.
Qed.

Lemma startswith_sep_head (a : ascii) (r : string) :
  Ascii.eqb a sep = false -> startswith (String sep "") (String a r) = false.
Proof.
  intros H. unfold startswith. cbn [prefix].
  destruct (ascii_dec sep a) as [<- | _]; [| reflexivity].
  rewrite Ascii.eqb_refl in H. discriminate.
Qed.

Lemma take_then_dot_no_sep (n : nat) (s rest : string) :
  rindex sep s = None ->
  startswith (String sep "") (take n s ++ String extsep rest) = false.
Proof.
  intros H. destruct n, s as [| a r]; try reflexivity.
  cbn [take append]. apply startswith_sep_head.
  apply rindex_none_head with (r := r), H.
Qed.

Lemma whole_then_dot_no_sep (s rest : string) :
  rindex sep s = None ->
  startswith (String sep "") (s ++ String extsep rest) = false.
Proof.
  intros H. destruct s as [| a r]; [reflexivity |].
  cbn [append]. apply startswith_sep_head.
  apply rindex_none_head with (r := r), H.
Qed.

(** The file name the program builds never starts with the separator. *)
Lemma file_name_relative (in_path ext : string) :
  startswith (String sep "") (base_name in_path ++ "." ++ ext) = false.
Proof.
  unfold base_name. cbn [path_splitext path_basename posixpath].
  pose proof (basename_no_sep in_path) as H.
  unfold splitext.
  destruct (_ && _)%bool; cbn [fst].
  - apply take_then_dot_no_sep, H.
  - apply whole_then_dot_no_sep, H.
Qed.

(** What [os.path.join] makes of the output directory and the file name. *)
Lemma out_path_posix (in_path output_dir ext : string) :
  out_path in_path output_dir ext
  = if (output_dir =? "") || ends_with_char sep output_dir
    then (output_dir ++ base_name in_path ++ "." ++ ext)%string
    else spec_out_path in_path output_dir ext.
Proof.
  unfold out_path, spec_out_path.
  cbn [path_join posixpath]. unfold join.
  rewrite file_name_relative. unfold truthy.
  rewrite negb_involutive. reflexivity.
Qed.

End PosixFacts.

(** ** Reasoning about traces and results *)

Section MonadFacts.
Context {A B : Type}.

Lemma silent_ret (a : A) : silent (ret a).
Proof. intros w. reflexivity. Qed.

Lemma silent_ask (f : World -> A) : silent (ask f).
Proof. intros w. reflexivity. Qed.

Lemma silent_bind (m : M A) (f : A -> M B) :
  silent m -> (forall a, silent (f a)) -> silent (bind m f).
Proof.
  intros Hm Hf w. specialize (Hm w). unfold bind.
  destruct (m w) as [[[a | e] w1] t1]; cbn in *; [| exact Hm].
  specialize (Hf a w1). destruct (f a w1) as [[r w2] t2]; cbn in *.
  rewrite forallb_app, Hm, Hf. reflexivity.
Qed.

Lemma silent_try_except (m : M A) (handles : Exn -> bool) (h : M A) :
  silent m -> silent h -> silent (try_except m handles h).
Proof.
  intros Hm Hh w. specialize (Hm w). unfold try_except.
  destruct (m w) as [[[a | e] w1] t1]; cbn in *; [exact Hm |].
  destruct (handles e); [| exact Hm].
  specialize (Hh w1). destruct (h w1) as [[r w2] t2]; cbn in *.
  rewrite forallb_app, Hm, Hh. reflexivity.
Qed.

Lemma total_ret (a : A) : total (ret a).
Proof. intros w. exists a. reflexivity. Qed.

Lemma total_ask (f : World -> A) : total (ask f).
Proof. intros w. exists (f w). reflexivity. Qed.

Lemma total_bind (m : M A) (f : A -> M B) :
  total m -> (forall a, total (f a)) -> total (bind m f).
Proof.
  intros Hm Hf w. destruct (Hm w) as [a Ha]. unfold bind.
  destruct (m w) as [[r w1] t1]; cbn in Ha; subst r.
  destruct (Hf a w1) as [b Hb].
  destruct (f a w1) as [[r w2] t2]; cbn in Hb; subst r.
  exists b. reflexivity.
Qed.

Lemma total_try_except (m : M A) (handles : Exn -> bool) (h : M A) :
  (forall e, handles e = true) -> total h -> total (try_except m handles h).
Proof.
  intros Hall Hh w. unfold try_except.
  destruct (m w) as [[[a | e] w1] t1].
  - exists a. reflexivity.
  - rewrite Hall. destruct (Hh w1) as [b Hb].
    destruct (h w1) as [[r w2] t2]; cbn in Hb; subst r.
    exists b. reflexivity.
Qed.

Lemma returns_only_ret (P : A -> Prop) (a : A) :
  P a -> returns_only P (ret a).
Proof. intros H w x E. cbn in E. injection E as <-. exact H. Qed.

Lemma returns_only_bind (P : B -> Prop) (m : M A) (f : A -> M B) :
  (forall a, returns_only P (f a)) -> returns_only P (bind m f).
Proof.
  intros Hf w b. unfold bind.
  destruct (m w) as [[[a | e] w1] t1]; [| discriminate].
  specialize (Hf a w1 b). destruct (f a w1) as [[r w2] t2]. exact Hf.
Qed.

End MonadFacts.

Lemma silent_isfile p : silent (os_path_isfile p).
Proof. intros w. reflexivity. Qed.

Lemma silent_isdir p : silent (os_path_isdir p).
Proof. intros w. reflexivity. Qed.

Lemma silent_which n : silent (shutil_which n).
Proof. intros w. reflexivity. Qed.

Lemma silent_message_box k t : silent (message_box k t).
Proof. intros w. reflexivity. Qed.

Lemma silent_call argv flags : silent (subprocess_call argv flags).
Proof.
  intros w. unfold subprocess_call. destruct (launch w argv); reflexivity.
Qed.

Lemma total_isfile p : total (os_path_isfile p).
Proof. intros w. eexists. reflexivity. Qed.

Lemma total_which n : total (shutil_which n).
Proof. intros w. eexists. reflexivity. Qed.

Lemma total_message_box k t : total (message_box k t).
Proof. intros w. eexists. reflexivity. Qed.

#[local] Hint Resolve silent_ret silent_ask silent_isfile silent_isdir
  silent_which silent_message_box silent_call : silent.
#[local] Hint Resolve total_ret total_ask total_isfile total_which
  total_message_box : total.

Ltac step_silent :=
  repeat match goal with
         | |- silent (bind _ _) => apply silent_bind; [| intros]
         | |- silent (try_except _ _ _) => apply silent_try_except
         | |- silent (if ?b then _ else _) => destruct b
         | |- silent (match ?x with _ => _ end) => destruct x
         | |- silent _ => solve [auto with silent]
         end.

Ltac step_total :=
  repeat match goal with
         | |- total (bind _ _) => apply total_bind; [| intros]
         | |- total (try_except _ _ _) =>
             apply total_try_except; [reflexivity |]
         | |- total (if ?b then _ else _) => destruct b
         | |- total (match ?x with _ => _ end) => destruct x
         | |- total _ => solve [auto with total]
         end.

Section LocatorFacts.
Context {os_path : OsPath}.

Lemma app_base_dir_run (w : World) :
  _app_base_dir w = (Ok (app_base_dir_of w), w, []).
Proof.
  unfold _app_base_dir, app_base_dir_of, bind, ask, ret.
  destruct (sys_frozen w); reflexivity.
Qed.

Lemma silent_app_base_dir : silent _app_base_dir.
Proof. intros w. rewrite app_base_dir_run. reflexivity. Qed.

Lemma total_app_base_dir : total _app_base_dir.
Proof. intros w. rewrite app_base_dir_run. eexists. reflexivity. Qed.

Hint Resolve silent_app_base_dir : silent.
Hint Resolve total_app_base_dir : total.

Lemma silent_find : silent _find_ffmpeg_binary.
Proof. unfold _find_ffmpeg_binary. step_silent. Qed.

Lemma total_find : total _find_ffmpeg_binary.
Proof. unfold _find_ffmpeg_binary. step_total. Qed.

(** Probing reads the world and leaves it as it is. *)
Lemma find_keeps_world (w : World) : world_of (_find_ffmpeg_binary w) = w.
Proof.
  unfold _find_ffmpeg_binary, bind. rewrite app_base_dir_run.
  unfold ask, os_path_isfile, shutil_which, ret. cbn.
  destruct (PyStr.mem _ (files w)); cbn; [reflexivity |].
  destruct (PyStr.truthy_opt (lookup_path "ffmpeg" (search_path w)));
    reflexivity.
Qed.

Lemma find_probes_only (w : World) :
  forallb is_probe (trace_of (_find_ffmpeg_binary w)) = true.
Proof.
  unfold _find_ffmpeg_binary, bind. rewrite app_base_dir_run.
  unfold ask, os_path_isfile, shutil_which, ret. cbn.
  destruct (PyStr.mem _ (files w)); cbn; [reflexivity |].
  destruct (PyStr.truthy_opt (lookup_path "ffmpeg" (search_path w)));
    reflexivity.
Qed.

Lemma silent_critical parent title : silent (critical_if_parent parent title).
Proof. unfold critical_if_parent. step_silent. Qed.

Lemma total_critical parent title : total (critical_if_parent parent title).
Proof. unfold critical_if_parent. step_total. Qed.

Hint Resolve silent_find silent_critical : silent.
Hint Resolve total_find total_critical : total.

Lemma silent_install_windows parent installer :
  silent (_install_ffmpeg_windows parent installer).
Proof. unfold _install_ffmpeg_windows. step_silent. Qed.

Lemma total_install_windows parent installer :
  total (_install_ffmpeg_windows parent installer).
Proof. unfold _install_ffmpeg_windows. step_total. Qed.

Lemma silent_install_macos parent : silent (_install_ffmpeg_macos parent).
Proof. unfold _install_ffmpeg_macos. step_silent. Qed.

Lemma total_install_macos parent : total (_install_ffmpeg_macos parent).
Proof. unfold _install_ffmpeg_macos. step_total. Qed.

Hint Resolve silent_install_windows silent_install_macos : silent.
Hint Resolve total_install_windows total_install_macos : total.

(** The locator never produces an event of the conversion, and no failure
    of an installer escapes it. *)
Lemma silent_ensure parent : silent (ensure_ffmpeg parent).
Proof. unfold ensure_ffmpeg. step_silent. Qed.

Lemma total_ensure parent : total (ensure_ffmpeg parent).
Proof. unfold ensure_ffmpeg. step_total. Qed.

(** A path the locator hands out is never the empty string, unless it is
    the bundled one (which [os.path.isfile] has accepted). *)
Lemma find_truthy (w : World) (ff : string) :
  result_of (_find_ffmpeg_binary w) = Ok (Some ff) ->
  PyStr.truthy_opt (Some ff) = true
  \/ PyStr.mem ff (files w) = true.
Proof.
  unfold _find_ffmpeg_binary, bind. rewrite app_base_dir_run.
  unfold ask, os_path_isfile, shutil_which, ret. cbn.
  destruct (PyStr.mem _ (files w)) eqn:E; cbn.
  - intros H. injection H as <-. right. exact E.
  - destruct (PyStr.truthy_opt (lookup_path "ffmpeg" (search_path w))) eqn:Et;
      cbn; intros H; [| discriminate].
    injection H as H. rewrite H in Et. left. exact Et.
Qed.

(** What [ensure_ffmpeg] returns has passed one of its [if ff:] tests. *)
Lemma ensure_returns_truthy (parent : bool) :
  returns_only (fun o => o = None \/ PyStr.truthy_opt o = true)
               (ensure_ffmpeg parent).
Proof.
  unfold ensure_ffmpeg.
  repeat match goal with
         | |- returns_only _ (bind _ _) => apply returns_only_bind; intros
         | |- returns_only _ (if PyStr.truthy_opt ?o then _ else _) =>
             let E := fresh "E" in destruct (PyStr.truthy_opt o) eqn:E
         | |- returns_only _ (if ?b then _ else _) => destruct b
         | |- returns_only _ (ret _) => apply returns_only_ret; auto
         end.
Qed.

Lemma ensure_truthy (parent : bool) (w : World) (ff : string) :
  result_of (ensure_ffmpeg parent w) = Ok (Some ff) ->
  PyStr.truthy ff = true.
Proof.
  intros H. destruct (ensure_returns_truthy parent w _ H) as [E | E].
  - discriminate.
  - exact E.
Qed.

End LocatorFacts.

(** ** The process runner *)

Section RunnerFacts.
Context {os_path : OsPath}.

Lemma emit_lines_run (lines : list string) (w : World) :
  emit_lines lines w = (Ok tt, w, map EvLogSignal lines).
Proof.
  induction lines as [| l r IH]; [reflexivity |].
  cbn [emit_lines map]. unfold bind, emit at 1. rewrite IH. reflexivity.
Qed.

(** A run whose launch went through. *)
Lemma run_started (self : FfmpegWorker) (w : World) (p : Process) :
  launch w (command self) = LaunchRuns p ->
  run self w
  = (Ok tt, after_exit p w,
     EvPopen (command self) (workdir self)
             (if os_name w =? "nt" then Some (Z.lor 0 STARTF_USESHOWWINDOW)
              else None)
             (if os_name w =? "nt" then CREATE_NO_WINDOW else 0%Z)
       :: map EvLogSignal (stdout_lines p)
       ++ [EvChildExit (command self) (returncode p);
           EvFinishedSignal (returncode p =? 0)%Z]).
Proof.
  intros H. unfold run, bind, try_except, subprocess_Popen, ask, ret.
  rewrite H. rewrite emit_lines_run.
  unfold process_wait, emit. cbn. reflexivity.
Qed.

(** A run whose launch raised [FileNotFoundError]. *)
Lemma run_not_found (self : FfmpegWorker) (w : World) :
  launch w (command self) = LaunchRaises FileNotFoundError ->
  run self w
  = (Ok tt, w,
     [EvPopenFailed (command self) FileNotFoundError;
      EvLogSignal ("ERROR: ffmpeg execution failed. Check installation."
                     ++ newline);
      EvFinishedSignal false]).
Proof.
  intros H. unfold run, bind, try_except, subprocess_Popen, ask, ret.
  rewrite H. reflexivity.
Qed.

(** A run whose launch raised anything else: the exception leaves [run]
    and neither signal is emitted. *)
Lemma run_other_error (self : FfmpegWorker) (w : World) (e : Exn) :
  launch w (command self) = LaunchRaises e ->
  is_FileNotFoundError e = false ->
  run self w = (Raise e, w, [EvPopenFailed (command self) e]).
Proof.
  intros H He. unfold run, bind, try_except, subprocess_Popen, ask, ret.
  rewrite H. cbn. rewrite He. reflexivity.
Qed.

Lemma filter_signal_logs (lines : list string) :
  filter is_signal (map EvLogSignal lines) = map EvLogSignal lines.
Proof. induction lines; cbn; congruence. Qed.

Lemma filter_finished_logs (lines : list string) :
  filter is_finished_signal (map EvLogSignal lines) = [].
Proof. induction lines; cbn; congruence. Qed.

Lemma no_finished_in_logs (lines : list string) (ok : bool) :
  ~ In (EvFinishedSignal ok) (map EvLogSignal lines).
Proof.
  intros H. apply in_map_iff in H. destruct H as [x [Hx _]]. discriminate.
Qed.

(** The signals of a run, in emission order. *)
Lemma run_signals_started (self : FfmpegWorker) (w : World) (p : Process) :
  launch w (command self) = LaunchRuns p ->
  filter is_signal (trace_of (run self w))
  = map EvLogSignal (stdout_lines p)
      ++ [EvFinishedSignal (returncode p =? 0)%Z].
Proof.
  intros H. rewrite (run_started _ _ _ H). unfold trace_of. cbn [snd filter is_signal].
  rewrite filter_app, filter_signal_logs. reflexivity.
Qed.

(** In the trace of any run a finished signal, when there is one, is the
    last event, and nothing before it is a finished signal. *)
Lemma run_trace_form (self : FfmpegWorker) (w : World) :
  exists body fin,
    trace_of (run self w) = body ++ fin
    /\ (forall ok, ~ In (EvFinishedSignal ok) body)
    /\ (fin = [] \/ exists ok, fin = [EvFinishedSignal ok])
    /\ (forall p, launch w (command self) = LaunchRuns p ->
                  existsb is_child_exit body = true).
Proof.
  destruct (launch w (command self)) as [e | p] eqn:E.
  - destruct (is_FileNotFoundError e) eqn:Ee.
    + destruct e; try discriminate.
      rewrite (run_not_found _ _ E).
      eexists [_; _], [_]. cbn [trace_of snd]. split; [reflexivity |].
      split; [| split; [right; eexists; reflexivity | discriminate]].
      intros ok [H | [H | []]]; discriminate.
    + rewrite (run_other_error _ _ _ E Ee).
      eexists [_], []. cbn [trace_of snd]. split; [reflexivity |].
      split; [| split; [left; reflexivity | discriminate]].
      intros ok [H | []]; discriminate.
  - rewrite (run_started _ _ _ E).
    eexists (_ :: map EvLogSignal (stdout_lines p) ++ [_]), [_].
    cbn [trace_of snd]. split.
    + cbn [app]. rewrite <- app_assoc. reflexivity.
    + split; [| split; [right; eexists; reflexivity |]].
      * intros ok [H | H]; [discriminate |].
        apply in_app_or in H. destruct H as [H | [H | []]];
          [exact (no_finished_in_logs _ _ H) | discriminate].
      * intros _ _. cbn [existsb is_child_exit orb].
        rewrite existsb_app. cbn. apply orb_true_r.
Qed.

End RunnerFacts.

(** ** Delivery through the event queue *)

Lemma delivery_inv_start (t : list Event) : delivery_inv t (start_delivery t).
Proof. exists []. repeat split. Qed.

Lemma delivery_inv_step (t : list Event) (a : Actor) (s : Delivery) :
  delivery_inv t s -> delivery_inv t (deliver_step a s).
Proof.
  intros [past [Ht [Hq Hx]]]. destruct a; unfold deliver_step.
  - destruct (todo s) as [| e rest] eqn:E.
    + exists past. rewrite E. auto.
    + exists (past ++ [e]). cbn [todo queued delivered child_exited].
      rewrite <- app_assoc. split; [exact Ht |].
      rewrite filter_app, existsb_app, <- Hq, <- Hx. cbn [filter existsb].
      rewrite orb_false_r.
      destruct (is_signal e); [rewrite app_assoc | rewrite app_nil_r]; auto.
  - destruct (queued s) as [| e q] eqn:E.
    + exists past. rewrite E. auto.
    + exists past. cbn [todo queued delivered child_exited].
      rewrite <- app_assoc. cbn [app]. auto.
Qed.

Lemma delivery_inv_schedule (t : list Event) (sched : list Actor) :
  forall s, delivery_inv t s -> delivery_inv t (schedule sched s).
Proof.
  unfold schedule. induction sched as [| a r IH]; intros s H; cbn [fold_left].
  - exact H.
  - apply IH, delivery_inv_step, H.
Qed.

(** Whatever the interleaving, what has been delivered is a prefix of the
    signals in emission order. *)
Lemma delivered_prefix (t : list Event) (s : Delivery) :
  delivery_inv t s ->
  exists later, delivered s ++ later = filter is_signal t.
Proof.
  intros [past [Ht [Hq Hx]]].
  exists (queued s ++ filter is_signal (todo s)).
  rewrite Ht at 1. rewrite filter_app, <- Hq, <- app_assoc. reflexivity.
Qed.

Lemma in_filter_signal (e : Event) (l : list Event) :
  In e (filter is_signal l) -> In e l.
Proof. intros H. apply filter_In in H. tauto. Qed.

(** Splitting [l1 ++ l2 = body ++ [x]] when [l1] holds an element that
    [body] cannot hold. *)
Lemma app_last_split {A} (l1 l2 body : list A) (x y : A) :
  l1 ++ l2 = body ++ [x] -> In y l1 -> ~ In y body ->
  l1 = body ++ [x] /\ l2 = [].
Proof.
  intros H Hy Hn.
  apply app_eq_app in H. destruct H as [l [[H1 H2] | [H1 H2]]].
  - destruct l as [| z l].
    + rewrite app_nil_r in H1. subst l1. contradiction.
    + cbn in H2. injection H2 as <- H2.
      symmetry in H2. apply app_eq_nil in H2. destruct H2 as [-> ->].
      split; [exact H1 | reflexivity].
  - subst body. exfalso. apply Hn, in_or_app. left. exact Hy.
Qed.

(** Once a finished signal has been delivered, the worker has nothing left
    to do, nothing is queued, and every signal has been delivered. *)
Lemma finished_delivered_last (t body : list Event) (fin : list Event)
      (s : Delivery) (ok : bool) :
  delivery_inv t s ->
  t = body ++ fin ->
  (forall b, ~ In (EvFinishedSignal b) body) ->
  (fin = [] \/ exists b, fin = [EvFinishedSignal b]) ->
  In (EvFinishedSignal ok) (delivered s) ->
  delivered s = filter is_signal t
  /\ child_exited s = existsb is_child_exit t.
Proof.
  intros [past [Ht [Hq Hx]]] Hform Hbody Hfin Hin.
  assert (Hpast : In (EvFinishedSignal ok) past).
  { apply in_filter_signal. rewrite <- Hq. apply in_or_app. left. exact Hin. }
  destruct Hfin as [-> | [b ->]].
  - rewrite app_nil_r in Hform. exfalso.
    apply (Hbody ok). rewrite <- Hform, Ht. apply in_or_app. left. exact Hpast.
  - rewrite Hform in Ht. symmetry in Ht.
    destruct (app_last_split _ _ _ _ _ Ht Hpast (Hbody ok)) as [Hp Htodo].
    rewrite Hx, Hform, <- Hp. split; [| reflexivity].
    rewrite Hp in Hq. rewrite filter_app in Hq. cbn [filter is_signal] in Hq.
    assert (Hnb : ~ In (EvFinishedSignal ok) (filter is_signal body)).
    { intros H. apply (Hbody ok), in_filter_signal, H. }
    destruct (app_last_split _ _ _ _ _ Hq Hin Hnb) as [Hd _].
    rewrite Hd, Hp, filter_app. reflexivity.
Qed.

(** C3. When the child starts and terminates, [run] returns normally and
    emits one finished signal, whose flag is true exactly when the exit
    status is zero, whatever lines the child wrote. *)
Theorem C3_success_iff_exit_zero
        {os_path : OsPath} (self : FfmpegWorker) (w : World) (p : Process) :
  launch w (command self) = LaunchRuns p ->
  exists ok,
    result_of (run self w) = Ok tt
    /\ filter is_finished_signal (trace_of (run self w)) = [EvFinishedSignal ok]
    /\ (ok = true <-> returncode p = 0%Z)
    /\ (ok = false <-> returncode p <> 0%Z).
Proof.
  intros H. exists (returncode p =? 0)%Z.
  rewrite (run_started _ _ _ H). unfold result_of, trace_of.
  cbn [fst snd filter is_finished_signal].
  rewrite filter_app, filter_finished_logs. cbn.
  repeat split; try apply Z.eqb_eq; try apply Z.eqb_neq; auto.
Qed.

Lemma C3_success_iff_exit_zero_witness :
  exists ok,
    result_of (run ffmpeg_worker linux_world) = Ok tt
    /\ filter is_finished_signal (trace_of (run ffmpeg_worker linux_world))
       = [EvFinishedSignal ok]
    /\ (ok = true <-> 1%Z = 0%Z)
    /\ (ok = false <-> 1%Z <> 0%Z).
Proof.
  apply (C3_success_iff_exit_zero ffmpeg_worker linux_world failing_ffmpeg).
  reflexivity.
Defined.

(** C4, the part the code keeps: a launch that raises [FileNotFoundError]
    costs one diagnostic log line and a failure outcome, and [run] returns
    normally. *)
Lemma run_launch_not_found
      {os_path : OsPath} (self : FfmpegWorker) (w : World) :
  launch w (command self) = LaunchRaises FileNotFoundError ->
  result_of (run self w) = Ok tt
  /\ filter is_signal (trace_of (run self w))
     = [EvLogSignal ("ERROR: ffmpeg execution failed. Check installation."
                       ++ newline);
        EvFinishedSignal false].
Proof. intros H. rewrite (run_not_found _ _ H). split; reflexivity. Qed.

(** C4, where the code departs from it: the bundled ffmpeg exists but may
    not be executed.  The locator hands out its path, the launch raises
    [PermissionError], [run] lets the exception through and emits neither a
    log line nor a finished signal. *)
Theorem C4_permission_error_escapes :
  result_of (ensure_ffmpeg true unexecutable_world) = Ok (Some "/opt/app/ffmpeg")
  /\ launch unexecutable_world (command bundled_worker)
     = LaunchRaises PermissionError
  /\ result_of (run bundled_worker unexecutable_world) = Raise PermissionError
  /\ filter is_signal (trace_of (run bundled_worker unexecutable_world)) = [].
Proof. repeat split. Qed.

(** C9. Under every interleaving of the worker with the interactive
    thread, the signals received so far are a prefix of the signals in the
    order the worker emitted them, which for a child that started is the
    order of the lines it wrote followed by the finished signal; and once a
    finished signal has been received, every log line has been received
    before it and the worker has seen the child exit. *)
Theorem C9_ordered_delivery
        {os_path : OsPath} (self : FfmpegWorker) (w : World)
        (sched : list Actor) :
  let t := trace_of (run self w) in
  let s := schedule sched (start_delivery t) in
  (exists later, delivered s ++ later = filter is_signal t)
  /\ (forall ok, In (EvFinishedSignal ok) (delivered s) ->
                 delivered s = filter is_signal t)
  /\ (forall p, launch w (command self) = LaunchRuns p ->
        filter is_signal t
        = map EvLogSignal (stdout_lines p)
            ++ [EvFinishedSignal (returncode p =? 0)%Z]
        /\ (forall ok, In (EvFinishedSignal ok) (delivered s) ->
                       child_exited s = true)).
Proof.
  intros t s.
  assert (Hinv : delivery_inv t s)
    by (apply delivery_inv_schedule, delivery_inv_start).
  destruct (run_trace_form self w) as [body [fin [Ht [Hbody [Hfin Hexit]]]]].
  fold t in Ht.
  split; [apply delivered_prefix, Hinv |].
  split.
  - intros ok Hin.
    apply (finished_delivered_last t body fin s ok Hinv Ht Hbody Hfin Hin).
  - intros p Hp. split; [apply run_signals_started, Hp |].
    intros ok Hin.
    destruct (finished_delivered_last t body fin s ok Hinv Ht Hbody Hfin Hin)
      as [_ Hx].
    rewrite Hx, Ht, existsb_app, (Hexit p Hp). reflexivity.
Qed.

Lemma C9_ordered_delivery_witness :
  let t := trace_of (run ffmpeg_worker linux_world) in
  let s := schedule mixed_schedule (start_delivery t) in
  launch linux_world (command ffmpeg_worker) = LaunchRuns failing_ffmpeg
  /\ In (EvFinishedSignal false) (delivered s)
  /\ delivered s = filter is_signal t
  /\ child_exited s = true.
Proof.
  intros t s.
  pose proof (C9_ordered_delivery ffmpeg_worker linux_world mixed_schedule)
    as [_ [Hall Hrun]].
  assert (Hin : In (EvFinishedSignal false) (delivered s))
    by (vm_compute; auto 10).
  split; [reflexivity |].
  split; [exact Hin |].
  split; [exact (Hall false Hin) |].
  destruct (Hrun failing_ffmpeg eq_refl) as [_ Hexit].
  exact (Hexit false Hin).
Defined.

(** Every signal does get delivered: the worker runs to its end, then the
    interactive thread empties the queue. *)
Example delivery_completes :
  delivered (schedule mixed_schedule
               (start_delivery (trace_of (run ffmpeg_worker linux_world))))
  = map EvLogSignal (stdout_lines failing_ffmpeg) ++ [EvFinishedSignal false].
Proof. reflexivity. Qed.

(** ** The conversion entry point *)

Section EntryFacts.
Context {os_path : OsPath}.

Lemma triple_eta {A} (x : Res A * World * list Event) :
  x = (result_of x, world_of x, trace_of x).
Proof. destruct x as [[r w] t]. reflexivity. Qed.

(** The two rejections of the pre-flight validation. *)
Lemma start_convert_no_input (self : RetroWindow) (w : World) :
  PyStr.truthy (input_path self) = false ->
  start_convert self w = (Ok None, w, [EvDialog Warning "No input"]).
Proof. intros H. unfold start_convert. rewrite H. reflexivity. Qed.

Lemma start_convert_no_dir (self : RetroWindow) (w : World) :
  PyStr.truthy (input_path self) = true ->
  PyStr.mem (output_dir self) (dirs w) = false ->
  start_convert self w
  = (Ok None, w,
     [EvIsDir (output_dir self) false; EvDialog Warning "Invalid output"]).
Proof.
  intros Hi Hd. unfold start_convert. rewrite Hi. cbn [negb].
  unfold bind, os_path_isdir. rewrite Hd. reflexivity.
Qed.

(** Past the validation, the entry point is the locator followed, when a
    tool path came back, by the start of the worker. *)
Lemma start_convert_validated (self : RetroWindow) (w : World) :
  PyStr.truthy (input_path self) = true ->
  PyStr.mem (output_dir self) (dirs w) = true ->
  start_convert self w
  = let located := ensure_ffmpeg true w in
    let t := EvIsDir (output_dir self) true :: trace_of located in
    match result_of located with
    | Ok (Some ff) =>
        if PyStr.truthy ff
        then (Ok (Some (worker_of self ff)), world_of located,
              t ++ start_events self ff)
        else (Ok None, world_of located, t ++ [])
    | Ok None => (Ok None, world_of located, t ++ [])
    | Raise e => (Raise e, world_of located, t)
    end.
Proof.
  intros Hi Hd. unfold start_convert. rewrite Hi. cbn [negb].
  unfold bind at 1. unfold os_path_isdir. rewrite Hd. cbn [negb].
  unfold bind at 1.
  destruct (ensure_ffmpeg true w) as [[[[ff |] | e] w1] t1];
    cbn [result_of world_of trace_of fst snd]; try reflexivity.
  destruct (PyStr.truthy ff); reflexivity.
Qed.

Lemma run_attempts_launch (wk : FfmpegWorker) (w : World) :
  existsb is_launch_attempt (trace_of (run wk w)) = true.
Proof.
  destruct (launch w (command wk)) as [e | p] eqn:E.
  - destruct (is_FileNotFoundError e) eqn:Ee.
    + destruct e; try discriminate. rewrite (run_not_found _ _ E). reflexivity.
    + rewrite (run_other_error _ _ _ E Ee). reflexivity.
  - rewrite (run_started _ _ _ E). reflexivity.
Qed.

(** [convert] when the entry point started a worker. *)
Lemma convert_started (self : RetroWindow) (w : World) (ff : string) :
  PyStr.truthy (input_path self) = true ->
  PyStr.mem (output_dir self) (dirs w) = true ->
  result_of (ensure_ffmpeg true w) = Ok (Some ff) ->
  PyStr.truthy ff = true ->
  start_convert self w
  = (Ok (Some (worker_of self ff)), world_of (ensure_ffmpeg true w),
     EvIsDir (output_dir self) true :: trace_of (ensure_ffmpeg true w)
       ++ start_events self ff)
  /\ trace_of (convert self w)
     = EvIsDir (output_dir self) true :: trace_of (ensure_ffmpeg true w)
         ++ start_events self ff
         ++ trace_of (run (worker_of self ff)
                          (world_of (ensure_ffmpeg true w))).
Proof.
  intros Hi Hd Hff Ht.
  assert (Hs : start_convert self w
               = (Ok (Some (worker_of self ff)), world_of (ensure_ffmpeg true w),
                  EvIsDir (output_dir self) true
                    :: trace_of (ensure_ffmpeg true w) ++ start_events self ff)).
  { rewrite (start_convert_validated _ _ Hi Hd). cbv zeta.
    rewrite Hff, Ht. reflexivity. }
  split; [exact Hs |].
  unfold convert, bind. rewrite Hs.
  destruct (run (worker_of self ff) (world_of (ensure_ffmpeg true w)))
    as [[r w2] t2]; cbn [trace_of snd].
  cbn [app]. rewrite <- app_assoc. reflexivity.
Qed.

(** [convert] when the entry point returned early. *)
Lemma convert_not_started (self : RetroWindow) (w : World) :
  result_of (start_convert self w) = Ok None ->
  result_of (convert self w) = Ok tt
  /\ trace_of (convert self w) = trace_of (start_convert self w).
Proof.
  intros H. unfold convert, bind.
  destruct (start_convert self w) as [[r w1] t1]; cbn in H; subst r.
  cbn. rewrite app_nil_r. split; reflexivity.
Qed.

End EntryFacts.

(** C8. When the locator returns "not found", the entry point returns
    without a worker, and the whole click produces no event of the
    conversion: no thread start and no launch attempt. *)
Theorem C8_not_found_no_launch
        {os_path : OsPath} (self : RetroWindow) (w : World) :
  result_of (ensure_ffmpeg true w) = Ok None ->
  result_of (start_convert self w) = Ok None
  /\ result_of (convert self w) = Ok tt
  /\ forallb not_runner (trace_of (convert self w)) = true
  /\ existsb is_launch_attempt (trace_of (convert self w)) = false.
Proof.
  intros Hnone.
  assert (Hs : result_of (start_convert self w) = Ok None
               /\ forallb not_runner (trace_of (start_convert self w)) = true).
  { destruct (PyStr.truthy (input_path self)) eqn:Hi.
    - destruct (PyStr.mem (output_dir self) (dirs w)) eqn:Hd.
      + rewrite (start_convert_validated _ _ Hi Hd). cbv zeta.
        rewrite Hnone. cbn [result_of trace_of fst snd]. split; [reflexivity |].
        rewrite app_nil_r. cbn [forallb not_runner is_runner_event negb andb].
        apply (silent_ensure true w).
      + rewrite (start_convert_no_dir _ _ Hi Hd). split; reflexivity.
    - rewrite (start_convert_no_input _ _ Hi). split; reflexivity. }
  destruct Hs as [Hr Ht].
  destruct (convert_not_started _ _ Hr) as [Hc Htc].
  split; [exact Hr |]. split; [exact Hc |].
  rewrite Htc. split; [exact Ht |].
  clear - Ht. induction (trace_of (start_convert self w)) as [| e r IH].
  - reflexivity.
  - cbn in Ht |- *. apply andb_prop in Ht. destruct Ht as [He Hr].
    rewrite (IH Hr), orb_false_r.
    destruct e; cbn in He |- *; congruence.
Qed.

Lemma C8_not_found_no_launch_witness :
  result_of (start_convert song_window bare_linux_world) = Ok None
  /\ result_of (convert song_window bare_linux_world) = Ok tt
  /\ forallb not_runner (trace_of (convert song_window bare_linux_world)) = true
  /\ existsb is_launch_attempt (trace_of (convert song_window bare_linux_world))
     = false.
Proof.
  apply (C8_not_found_no_launch song_window bare_linux_world).
  reflexivity.
Defined.

(** C10. The entry point turns a click down in two cases only, an empty
    input path and an output directory that does not exist.  With an input
    path chosen and an existing output directory it goes to the locator
    although the input file is absent, and when the locator hands out a tool
    path the worker is started and attempts the launch; between the
    directory check and the start of the worker only the locator touches the
    file system. *)
Theorem C10_input_file_not_checked
        {os_path : OsPath} (self : RetroWindow) (w : World) :
  (PyStr.truthy (input_path self) = false ->
   start_convert self w = (Ok None, w, [EvDialog Warning "No input"]))
  /\ (PyStr.truthy (input_path self) = true ->
      PyStr.mem (output_dir self) (dirs w) = false ->
      start_convert self w
      = (Ok None, w,
         [EvIsDir (output_dir self) false; EvDialog Warning "Invalid output"]))
  /\ (PyStr.truthy (input_path self) = true ->
      PyStr.mem (output_dir self) (dirs w) = true ->
      PyStr.mem (input_path self) (files w) = false ->
      (exists rest,
          trace_of (start_convert self w)
          = EvIsDir (output_dir self) true
              :: trace_of (ensure_ffmpeg true w) ++ rest)
      /\ (forall ff,
            result_of (ensure_ffmpeg true w) = Ok (Some ff) ->
            result_of (start_convert self w) = Ok (Some (worker_of self ff))
            /\ trace_of (convert self w)
               = EvIsDir (output_dir self) true
                   :: trace_of (ensure_ffmpeg true w)
                   ++ start_events self ff
                   ++ trace_of (run (worker_of self ff)
                                    (world_of (ensure_ffmpeg true w)))
            /\ existsb is_launch_attempt (trace_of (convert self w)) = true)).
Proof.
  split; [apply start_convert_no_input |].
  split; [apply start_convert_no_dir |].
  intros Hi Hd _. split.
  - rewrite (start_convert_validated _ _ Hi Hd). cbv zeta.
    destruct (result_of (ensure_ffmpeg true w)) as [[ff |] | e].
    + destruct (PyStr.truthy ff); eexists; reflexivity.
    + eexists; reflexivity.
    + exists []. rewrite app_nil_r. reflexivity.
  - intros ff Hff.
    pose proof (ensure_truthy true w ff Hff) as Ht.
    destruct (convert_started _ _ _ Hi Hd Hff Ht) as [Hs Hc].
    split; [rewrite Hs; reflexivity |]. split; [exact Hc |].
    rewrite Hc. cbn [existsb]. rewrite !existsb_app.
    rewrite run_attempts_launch. rewrite !orb_true_r. reflexivity.
Qed.

Lemma C10_input_file_not_checked_witness :
  PyStr.mem (input_path song_window) (files linux_world) = false
  /\ result_of (start_convert song_window linux_world)
     = Ok (Some (worker_of song_window "/usr/bin/ffmpeg"))
  /\ existsb is_launch_attempt (trace_of (convert song_window linux_world))
     = true.
Proof.
  split; [reflexivity |].
  destruct (C10_input_file_not_checked song_window linux_world)
    as [_ [_ H]].
  destruct (H eq_refl eq_refl eq_refl) as [_ Hff].
  destruct (Hff "/usr/bin/ffmpeg" eq_refl) as [Hs [_ Hl]].
  split; [exact Hs | exact Hl].
Defined.

(** ** The output path and the overwrite flag *)

(** C2 as the specification words it fails where the output directory
    already ends with the separator: for the root directory [os.path.join]
    adds no second slash.  The window below reaches the worker with that
    path. *)
Lemma C2_root_directory_counterexample :
  result_of (start_convert root_window linux_world)
  = Ok (Some (worker_of root_window "/usr/bin/ffmpeg"))
  /\ last (command (worker_of root_window "/usr/bin/ffmpeg")) "" = "/song.mp3"
  /\ out_path "/x/song.mov" "/" "mp3" = "/song.mp3"
  /\ spec_out_path "/x/song.mov" "/" "mp3" = "//song.mp3"
  /\ out_path "/x/song.mov" "/" "mp3" <> spec_out_path "/x/song.mov" "/" "mp3".
Proof. repeat split. discriminate. Qed.

(** C2, amended. The output path is [os.path.join] of the output
    directory and the file name made of the base name of the input without
    its extension, a dot and the format, with the [os.path] of the host,
    whichever it is.  The command the entry point hands to the worker
    carries [-y] as its second argument and that path as its last one, and
    the entry point asks the file system nothing but whether the output
    directory exists: what lies at the output path plays no part.  Where
    [os.path] is [posixpath], the path is the output directory, a slash
    unless the directory is empty or already ends with one, and the file
    name. *)
Theorem C2_output_path_and_overwrite
        {os_path : OsPath} (self : RetroWindow) (w : World) (ff : string) :
  PyStr.truthy (input_path self) = true ->
  PyStr.mem (output_dir self) (dirs w) = true ->
  result_of (ensure_ffmpeg true w) = Ok (Some ff) ->
  let cmd := command (worker_of self ff) in
  let name := (fst (path_splitext (path_basename (input_path self)))
                 ++ "." ++ format_text self)%string in
  result_of (start_convert self w) = Ok (Some (worker_of self ff))
  /\ trace_of (start_convert self w)
     = EvIsDir (output_dir self) true :: trace_of (ensure_ffmpeg true w)
         ++ start_events self ff
  /\ nth_error cmd 1 = Some "-y"
  /\ last cmd "" = path_join (output_dir self) name
  /\ @out_path posixpath (input_path self) (output_dir self) (format_text self)
     = (if (output_dir self =? "")
           || PyStr.ends_with_char Posixpath.sep (output_dir self)
        then (output_dir self ++ @base_name posixpath (input_path self)
                ++ "." ++ format_text self)%string
        else @spec_out_path posixpath (input_path self) (output_dir self)
                            (format_text self)).
Proof.
  intros Hi Hd Hff cmd name.
  pose proof (ensure_truthy true w ff Hff) as Ht.
  destruct (convert_started _ _ _ Hi Hd Hff Ht) as [Hs _].
  rewrite Hs. split; [reflexivity |]. split; [reflexivity |].
  subst cmd name. unfold worker_of. cbn [command].
  rewrite build_cmd_shape.
  split; [reflexivity |].
  split; [rewrite app_assoc; apply last_last |].
  apply PosixFacts.out_path_posix.
Qed.

(** At the witness a file already lies at the output path. *)
Lemma C2_output_path_and_overwrite_witness :
  PyStr.mem (out_path "/x/song.mov" "/out" "mp3") (files linux_world) = true
  /\ result_of (start_convert song_window linux_world)
     = Ok (Some (worker_of song_window "/usr/bin/ffmpeg"))
  /\ nth_error (command (worker_of song_window "/usr/bin/ffmpeg")) 1 = Some "-y"
  /\ last (command (worker_of song_window "/usr/bin/ffmpeg")) ""
     = Posixpath.join "/out" "song.mp3"
  /\ out_path "/x/song.mov" "/out" "mp3" = "/out/song.mp3".
Proof.
  split; [reflexivity |].
  destruct (C2_output_path_and_overwrite (os_path := posixpath)
              song_window linux_world
              "/usr/bin/ffmpeg" eq_refl eq_refl eq_refl)
    as [Hs [_ [Hy [Hl Ho]]]].
  split; [exact Hs |]. split; [exact Hy |]. split; [exact Hl |].
  exact Ho.
Defined.

(** ** The installer script *)

Section InstallerFacts.
Context {os_path : OsPath}.

Lemma find_run (w : World) :
  exists r,
    _find_ffmpeg_binary w = (Ok r, w, trace_of (_find_ffmpeg_binary w)).
Proof.
  destruct (total_find w) as [r Hr]. exists r.
  rewrite (triple_eta (_find_ffmpeg_binary w)) at 1.
  rewrite Hr, find_keeps_world. reflexivity.
Qed.

Lemma after_spawn_probes (t r : list Event) :
  forallb is_probe t = true -> after_spawn (t ++ r) = after_spawn r.
Proof.
  induction t as [| e t IH]; intros H; [reflexivity |].
  cbn in H. apply andb_prop in H. destruct H as [He Ht].
  cbn [app]. destruct e; try discriminate; cbn [after_spawn]; apply IH, Ht.
Qed.

End InstallerFacts.

(** C5 as the specification words it fails: in [windows_world] ffmpeg is
    nowhere before the installer has run, the script puts it next to the
    application by the time it exits, and the locator comes back with that
    very file: in its trace the exit of the child precedes the re-probe. *)
Lemma C5_installer_counterexample :
  result_of (_find_ffmpeg_binary windows_world) = Ok None
  /\ launch windows_world ["cmd"; "/c"; "C:/app/ffmpeginstall.bat"]
     = LaunchRuns installer_process
  /\ trace_of (ensure_ffmpeg true windows_world)
     = [EvIsFile "C:/app/ffmpeg.exe" false;
        EvWhich "ffmpeg" None;
        EvIsFile "C:/app/ffmpeginstall.bat" true;
        EvDialog Question "FFmpeg not found";
        EvSpawn ["cmd"; "/c"; "C:/app/ffmpeginstall.bat"] 16;
        EvChildExit ["cmd"; "/c"; "C:/app/ffmpeginstall.bat"] 0;
        EvIsFile "C:/app/ffmpeg.exe" true]
  /\ result_of (ensure_ffmpeg true windows_world) = Ok (Some "C:/app/ffmpeg.exe")
  /\ reprobes_without_waiting (trace_of (ensure_ffmpeg true windows_world))
     <> true.
Proof. repeat split. discriminate. Qed.

(** C5, amended. Where [sys.platform] starts with [win], ffmpeg is not
    found, the installer script lies next to the application, the user
    answers yes and the script can be started, the locator starts
    [cmd /c <script>] with the new-console flag and waits for it to exit;
    the re-probe comes after that exit, in the world the installer has
    left behind, and decides the result. *)
Theorem C5_installer_is_waited_for
        {os_path : OsPath} (w : World) (p : Process) :
  let installer := path_join (app_base_dir_of w) "ffmpeginstall.bat" in
  let argv := ["cmd"; "/c"; installer] in
  let flags := match CREATE_NEW_CONSOLE w with Some v => v | None => 0%Z end in
  PyStr.startswith "win" (sys_platform w) = true ->
  result_of (_find_ffmpeg_binary w) = Ok None ->
  PyStr.mem installer (files w) = true ->
  user_reply w "FFmpeg not found" = Yes ->
  launch w argv = LaunchRuns p ->
  result_of (ensure_ffmpeg true w)
  = match result_of (_find_ffmpeg_binary (after_exit p w)) with
    | Ok found => if PyStr.truthy_opt found then Ok found else Ok None
    | Raise e => Raise e
    end
  /\ (exists tail,
        trace_of (ensure_ffmpeg true w)
        = trace_of (_find_ffmpeg_binary w)
            ++ [EvIsFile installer true;
                EvDialog Question "FFmpeg not found";
                EvSpawn argv flags;
                EvChildExit argv (returncode p)]
            ++ trace_of (_find_ffmpeg_binary (after_exit p w))
            ++ tail)
  /\ reprobes_without_waiting (trace_of (ensure_ffmpeg true w)) = false.
Proof.
  intros installer argv flags Hwin Hnone Hinst Hreply Hlaunch.
  destruct (find_run w) as [r0 E0].
  rewrite E0 in Hnone. cbn in Hnone. injection Hnone as ->.
  destruct (find_run (after_exit p w)) as [r1 E1].
  assert (Hrun :
    ensure_ffmpeg true w
    = (Ok (if PyStr.truthy_opt r1 then r1 else None), after_exit p w,
       trace_of (_find_ffmpeg_binary w)
         ++ [EvIsFile installer true;
             EvDialog Question "FFmpeg not found";
             EvSpawn argv flags;
             EvChildExit argv (returncode p)]
         ++ trace_of (_find_ffmpeg_binary (after_exit p w))
         ++ if PyStr.truthy_opt r1 then []
            else [EvDialog Critical "FFmpeg Missing"])).
  { unfold ensure_ffmpeg. unfold bind at 1. rewrite E0.
    cbn [PyStr.truthy_opt]. unfold bind at 1. unfold ask at 1. rewrite Hwin.
    unfold bind at 1. rewrite app_base_dir_run.
    unfold bind at 1. unfold os_path_isfile at 1.
    fold installer. rewrite Hinst.
    unfold bind at 1. unfold bind at 1.
    unfold _install_ffmpeg_windows. unfold bind at 1.
    unfold message_box at 1. rewrite Hreply. cbn [button_eqb negb].
    unfold try_except, bind at 1. unfold ask at 1.
    unfold bind at 1. unfold subprocess_call. fold argv. rewrite Hlaunch.
    fold flags. unfold ret at 1. rewrite E1.
    destruct (PyStr.truthy_opt r1); cbn; rewrite ?app_nil_r; reflexivity. }
  rewrite Hrun, E1. cbn [result_of trace_of fst snd].
  split; [destruct (PyStr.truthy_opt r1); reflexivity |].
  split; [eexists; reflexivity |].
  unfold reprobes_without_waiting.
  rewrite after_spawn_probes by apply find_probes_only.
  reflexivity.
Qed.

Lemma C5_installer_is_waited_for_witness :
  result_of (ensure_ffmpeg true windows_world) = Ok (Some "C:/app/ffmpeg.exe")
  /\ reprobes_without_waiting (trace_of (ensure_ffmpeg true windows_world))
     = false.
Proof.
  destruct (C5_installer_is_waited_for (os_path := posixpath)
              windows_world installer_process
              eq_refl eq_refl eq_refl eq_refl eq_refl) as [Hr [_ Hw]].
  split; [rewrite Hr; reflexivity | exact Hw].
Defined.

(** * Beyond the specification's claims *)

(** ** [int] and [str] *)

Module PyIntFacts.
Import PyInt.

Lemma uint_value_acc (d : Decimal.uint) :
  forall acc, Z.pos (Pos.of_uint_acc d acc) = uint_value (Z.pos acc) d.
Proof.
  induction d; intros acc; cbn [Pos.of_uint_acc uint_value];
    try reflexivity; rewrite IHd; f_equal; lia.
Qed.

Lemma uint_value_of_uint (d : Decimal.uint) :
  Z.of_N (Pos.of_uint d) = uint_value 0 d.
Proof.
  induction d; cbn [Pos.of_uint uint_value Z.of_N];
    try reflexivity; try exact IHd; apply uint_value_acc.
Qed.

Lemma uint_value_to_uint (p : positive) :
  uint_value 0 (Pos.to_uint p) = Z.pos p.
Proof.
  rewrite <- uint_value_of_uint, DecimalPos.Unsigned.of_to. reflexivity.
Qed.

Lemma to_uint_not_nil (p : positive) : Pos.to_uint p <> Decimal.Nil.
Proof.
  intros H. pose proof (uint_value_to_uint p) as E.
  rewrite H in E. discriminate.
Qed.

Lemma digits_of_uint (d : Decimal.uint) :
  forall acc after_digit,
    d <> Decimal.Nil \/ after_digit = true ->
    digits acc after_digit (NilEmpty.string_of_uint d) = Some (uint_value acc d).
Proof.
  induction d; intros acc b H;
    cbn [NilEmpty.string_of_uint digits uint_value];
    try (change (digit_value _) with (Some 0%Z) || change (digit_value _) with (Some 1%Z)
         || change (digit_value _) with (Some 2%Z) || change (digit_value _) with (Some 3%Z)
         || change (digit_value _) with (Some 4%Z) || change (digit_value _) with (Some 5%Z)
         || change (digit_value _) with (Some 6%Z) || change (digit_value _) with (Some 7%Z)
         || change (digit_value _) with (Some 8%Z) || change (digit_value _) with (Some 9%Z));
    try (apply IHd; right; reflexivity).
  destruct H as [H | ->]; [contradiction | reflexivity].
Qed.

Lemma no_space_of_uint (d : Decimal.uint) :
  no_space (NilEmpty.string_of_uint d) = true.
Proof. induction d; cbn [NilEmpty.string_of_uint no_space]; auto. Qed.

Lemma lstrip_no_space (s : string) : no_space s = true -> lstrip s = s.
Proof.
  destruct s as [| c r]; [reflexivity |]. cbn [no_space lstrip].
  destruct (is_space c); [discriminate | reflexivity].
Qed.

Lemma rstrip_no_space (s : string) : no_space s = true -> rstrip s = s.
Proof.
  induction s as [| c r IH]; [reflexivity |]. cbn [no_space rstrip].
  intros H. apply andb_prop in H. destruct H as [Hc Hr].
  rewrite (IH Hr). destruct r; [| reflexivity].
  destruct (is_space c); [discriminate | reflexivity].
Qed.

Lemma strip_no_space (s : string) : no_space s = true -> strip s = s.
Proof.
  intros H. unfold strip. rewrite (lstrip_no_space _ H). apply rstrip_no_space, H.
Qed.

(** A numeral that is not empty starts with a digit, so with neither sign. *)
Lemma int_of_uint_string (d : Decimal.uint) :
  d <> Decimal.Nil ->
  int (NilEmpty.string_of_uint d) = Some (uint_value 0 d).
Proof.
  intros H. unfold int. rewrite (strip_no_space _ (no_space_of_uint d)).
  pose proof (digits_of_uint d 0 false (or_introl H)) as E.
  destruct d; try contradiction; exact E.
Qed.

Lemma int_str (n : Z) : int (str n) = Some n.
Proof.
  unfold str. destruct n as [| p | p];
    cbn [Z.to_int NilEmpty.string_of_int].
  - reflexivity.
  - rewrite (int_of_uint_string _ (to_uint_not_nil p)).
    rewrite uint_value_to_uint. reflexivity.
  - unfold int.
    rewrite strip_no_space by (cbn [no_space]; apply no_space_of_uint).
    cbn [Ascii.eqb Bool.eqb].
    rewrite (digits_of_uint _ 0 false (or_introl (to_uint_not_nil p))).
    rewrite uint_value_to_uint. reflexivity.
Qed.

End PyIntFacts.

(** What [int] refuses: the empty string, a lone sign, underscores that are
    not between two digits, and a label that is no number. *)
Example int_edge_cases :
  PyInt.int "" = None
  /\ PyInt.int "-" = None
  /\ PyInt.int "_1" = None
  /\ PyInt.int "1_" = None
  /\ PyInt.int "1__0" = None
  /\ PyInt.int "No files Converted" = None
  /\ PyInt.int " +1_000 " = Some 1000%Z
  /\ PyInt.int "-007" = Some (-7)%Z.
Proof. repeat split. Qed.

(** ** The window *)

Section GuiFacts.
Context {os_path : OsPath}.

Lemma apply_event_fields (g : Gui) (e : Event) :
  fields (apply_event g e) = fields g
  /\ file_display (apply_event g e) = file_display g
  /\ output_display (apply_event g e) = output_display g.
Proof.
  destruct e; cbn; auto.
  unfold on_convert_finished. destruct ok; cbn; auto.
  destruct (PyInt.int (big_label g)); cbn; auto.
Qed.

Lemma gui_after_fields (t : list Event) :
  forall g,
    fields (gui_after t g) = fields g
    /\ file_display (gui_after t g) = file_display g
    /\ output_display (gui_after t g) = output_display g.
Proof.
  unfold gui_after. induction t as [| e r IH]; intros g; cbn [fold_left].
  - auto.
  - destruct (IH (apply_event g e)) as [H1 [H2 H3]].
    destruct (apply_event_fields g e) as [E1 [E2 E3]].
    rewrite H1, H2, H3, E1, E2, E3. auto.
Qed.

Lemma user_step_gui (a : UserAction) (g : Gui) (w : World) :
  fst (fst (user_step a g w))
  = match a with
    | Browse path => pick_file path g
    | ChangeFolder folder => pick_output_folder folder g
    | ClickCancel => g
    | ClickConvert =>
        if convert_enabled g
        then gui_after (trace_of (convert (fields g) w)) g
        else g
    | _ => set_fields (select a (fields g)) g
    end.
Proof. destruct a; cbn; try reflexivity. destruct (convert_enabled g); reflexivity. Qed.

Lemma user_step_shows (a : UserAction) (g : Gui) (w : World) :
  shows_its_fields g -> shows_its_fields (fst (fst (user_step a g w))).
Proof.
  intros [Hf Ho]. rewrite user_step_gui. unfold shows_its_fields.
  destruct a; cbn; auto.
  - unfold pick_file. destruct (PyStr.truthy path); cbn; auto.
  - unfold pick_output_folder. destruct (PyStr.truthy folder); cbn; auto.
  - destruct (convert_enabled g); auto.
    destruct (gui_after_fields (trace_of (convert (fields g) w)) g)
      as [H1 [H2 H3]].
    rewrite H1, H2, H3. auto.
Qed.

Lemma session_cons (a : UserAction) (rest : list UserAction)
      (g : Gui) (w : World) :
  session (a :: rest) g w
  = let x := user_step a g w in
    let y := session rest (fst (fst x)) (snd (fst x)) in
    (fst (fst y), snd (fst y), snd x ++ snd y).
Proof.
  cbn [session]. destruct (user_step a g w) as [[g1 w1] t1]. cbn [fst snd].
  destruct (session rest g1 w1) as [[g2 w2] t2]. reflexivity.
Qed.

(** An invariant of single steps is an invariant of sessions. *)
Lemma session_invariant (P : Gui -> Prop) :
  (forall a g w, P g -> P (fst (fst (user_step a g w)))) ->
  forall actions g w, P g -> P (fst (fst (session actions g w))).
Proof.
  intros Hstep actions. induction actions as [| a rest IH]; intros g w H.
  - exact H.
  - rewrite session_cons. cbv zeta. cbn [fst snd].
    apply IH, Hstep, H.
Qed.

End GuiFacts.

Section CounterFacts.
Context {os_path : OsPath}.

Lemma counter_label_next (n : nat) (g : Gui) :
  big_label g = counter_label n ->
  big_label (on_convert_finished true g) = counter_label (S n).
Proof.
  intros H. unfold on_convert_finished. cbn [big_label append_log set_busy
    set_sub_label]. rewrite H. destruct n as [| k].
  - reflexivity.
  - cbn [counter_label]. rewrite PyIntFacts.int_str.
    cbn [big_label set_big_label]. f_equal. lia.
Qed.

Lemma apply_event_counter (n : nat) (g : Gui) (e : Event) :
  big_label g = counter_label n ->
  big_label (apply_event g e) = counter_label (n + successes [e]).
Proof.
  intros H. destruct e; cbn [apply_event successes filter List.length];
    rewrite ?Nat.add_0_r; try exact H.
  destruct ok; cbn [List.length].
  - rewrite Nat.add_1_r. apply counter_label_next, H.
  - rewrite Nat.add_0_r. exact H.
Qed.

Lemma successes_app (t1 t2 : list Event) :
  successes (t1 ++ t2) = successes t1 + successes t2.
Proof. unfold successes. rewrite filter_app, length_app. reflexivity. Qed.

Lemma gui_after_counter (t : list Event) :
  forall n g,
    big_label g = counter_label n ->
    big_label (gui_after t g) = counter_label (n + successes t).
Proof.
  unfold gui_after. induction t as [| e r IH]; intros n g H; cbn [fold_left].
  - rewrite Nat.add_0_r. exact H.
  - change (e :: r) with ([e] ++ r). rewrite successes_app, Nat.add_assoc.
    apply IH, apply_event_counter, H.
Qed.

Lemma user_step_counter (a : UserAction) (n : nat) (g : Gui) (w : World) :
  big_label g = counter_label n ->
  big_label (fst (fst (user_step a g w)))
  = counter_label (n + successes (snd (user_step a g w))).
Proof.
  intros H. destruct a; cbn [user_step fst snd];
    rewrite ?Nat.add_0_r; try exact H.
  - unfold pick_file. destruct (PyStr.truthy path); exact H.
  - unfold pick_output_folder. destruct (PyStr.truthy folder); exact H.
  - destruct (convert_enabled g); cbn [fst snd].
    + apply gui_after_counter, H.
    + rewrite Nat.add_0_r. exact H.
Qed.

Lemma session_counter (actions : list UserAction) :
  forall n g w,
    big_label g = counter_label n ->
    big_label (fst (fst (session actions g w)))
    = counter_label (n + successes (snd (session actions g w))).
Proof.
  induction actions as [| a rest IH]; intros n g w H.
  - cbn. rewrite Nat.add_0_r. exact H.
  - rewrite session_cons. cbv zeta. cbn [fst snd].
    rewrite successes_app, Nat.add_assoc.
    apply IH, user_step_counter, H.
Qed.

End CounterFacts.

Section WindowTheorems.
Context {os_path : OsPath}.

Lemma gui_after_app (t1 t2 : list Event) (g : Gui) :
  gui_after (t1 ++ t2) g = gui_after t2 (gui_after t1 g).
Proof. unfold gui_after. apply fold_left_app. Qed.

Lemma gui_after_silent (t : list Event) :
  forall g, forallb not_runner t = true -> gui_after t g = g.
Proof.
  unfold gui_after. induction t as [| e r IH]; intros g H; [reflexivity |].
  cbn in H. apply andb_prop in H. destruct H as [He Hr]. cbn [fold_left].
  replace (apply_event g e) with g; [apply IH, Hr |].
  destruct e; try reflexivity; discriminate.
Qed.

Lemma gui_after_log_signals (lines : list string) :
  forall g,
    log_view (gui_after (map EvLogSignal lines) g) = log_view g ++ lines
    /\ convert_enabled (gui_after (map EvLogSignal lines) g) = convert_enabled g
    /\ cancel_enabled (gui_after (map EvLogSignal lines) g) = cancel_enabled g.
Proof.
  unfold gui_after. induction lines as [| l r IH]; intros g; cbn [map fold_left].
  - rewrite app_nil_r. auto.
  - destruct (IH (apply_event g (EvLogSignal l))) as [H1 [H2 H3]].
    rewrite H1, H2, H3. cbn. rewrite <- app_assoc. auto.
Qed.

Lemma on_convert_finished_buttons (ok : bool) (g : Gui) :
  convert_enabled (on_convert_finished ok g) = true
  /\ cancel_enabled (on_convert_finished ok g) = false
  /\ log_view (on_convert_finished ok g) = log_view g ++ [verdict_line ok].
Proof.
  unfold on_convert_finished, verdict_line. destruct ok; cbn; auto.
  destruct (PyInt.int (big_label g)); cbn; auto.
Qed.

(** A click that is turned down produces no event of the conversion. *)
Lemma start_convert_rejected_silent (self : RetroWindow) (w : World) :
  result_of (start_convert self w) = Ok None ->
  forallb not_runner (trace_of (start_convert self w)) = true.
Proof.
  destruct (PyStr.truthy (input_path self)) eqn:Hi.
  - destruct (PyStr.mem (output_dir self) (dirs w)) eqn:Hd.
    + rewrite (start_convert_validated _ _ Hi Hd). cbv zeta.
      pose proof (silent_ensure true w) as Hs.
      destruct (result_of (ensure_ffmpeg true w)) as [[ff |] | e].
      * destruct (PyStr.truthy ff); cbn [result_of trace_of fst snd].
        -- discriminate.
        -- intros _. rewrite app_nil_r. exact Hs.
      * intros _. cbn [result_of trace_of fst snd]. rewrite app_nil_r. exact Hs.
      * discriminate.
    + rewrite (start_convert_no_dir _ _ Hi Hd). reflexivity.
  - rewrite (start_convert_no_input _ _ Hi). reflexivity.
Qed.

(** A run that returns normally ends with its finished signal. *)
Lemma run_ok_ends_finished (wk : FfmpegWorker) (w : World) :
  result_of (run wk w) = Ok tt ->
  exists body ok, trace_of (run wk w) = body ++ [EvFinishedSignal ok].
Proof.
  destruct (launch w (command wk)) as [e | p] eqn:E.
  - destruct (is_FileNotFoundError e) eqn:Ee.
    + destruct e; try discriminate. rewrite (run_not_found _ _ E). intros _.
      eexists [_; _], _. reflexivity.
    + rewrite (run_other_error _ _ _ E Ee). discriminate.
  - rewrite (run_started _ _ _ E). intros _.
    eexists (_ :: _ ++ [_]), _. cbn [trace_of snd app].
    rewrite <- app_assoc. reflexivity.
Qed.

(** [convert] in terms of the entry point and the worker. *)
Lemma convert_with_worker (self : RetroWindow) (w : World) (wk : FfmpegWorker) :
  result_of (start_convert self w) = Ok (Some wk) ->
  result_of (convert self w)
  = result_of (run wk (world_of (start_convert self w)))
  /\ trace_of (convert self w)
     = trace_of (start_convert self w)
         ++ trace_of (run wk (world_of (start_convert self w))).
Proof.
  intros H. unfold convert, bind.
  destruct (start_convert self w) as [[r w1] t1]. cbn in H. subst r.
  cbn [world_of trace_of fst snd].
  destruct (run wk w1) as [[r2 w2] t2]. split; reflexivity.
Qed.

End WindowTheorems.

(** X1. The counter label counts the successful conversions: after any
    session that starts from the fresh window, in any world, the label is
    "No files Converted" if no finished signal reported success, and
    otherwise the decimal writing of the number of those that did; failed
    conversions and all other actions leave it alone. *)
Theorem X1_counter_counts_successes
        {os_path : OsPath} (home : string) (actions : list UserAction)
        (w : World) :
  let r := session actions (initial_gui home) w in
  big_label (fst (fst r)) = counter_label (successes (snd r)).
Proof.
  intros r. subst r.
  apply (session_counter actions 0 (initial_gui home) w). reflexivity.
Qed.

(** X2. What the window shows is what the conversion uses: after any
    session from the fresh window the input display holds [input_path] and
    the output display holds [output_dir]. *)
Theorem X2_displays_follow_fields
        {os_path : OsPath} (home : string) (actions : list UserAction)
        (w : World) :
  let g := fst (fst (session actions (initial_gui home) w)) in
  file_display g = input_path (fields g)
  /\ output_display g = output_dir (fields g).
Proof.
  intros g. subst g.
  apply (session_invariant shows_its_fields user_step_shows).
  split; reflexivity.
Qed.

(** X3. A dismissed file dialog changes nothing, and once a file has been
    chosen no later action empties the input path again. *)
Theorem X3_chosen_input_stays
        {os_path : OsPath} (actions : list UserAction) (g : Gui) (w : World) :
  pick_file "" g = g
  /\ pick_output_folder "" g = g
  /\ (PyStr.truthy (input_path (fields g)) = true ->
      PyStr.truthy (input_path (fields (fst (fst (session actions g w)))))
      = true).
Proof.
  split; [reflexivity |]. split; [reflexivity |].
  apply (session_invariant
           (fun g => PyStr.truthy (input_path (fields g)) = true)).
  clear. intros a g w H. rewrite user_step_gui.
  destruct a; cbn; auto.
  - unfold pick_file. destruct (PyStr.truthy path) eqn:E; cbn; auto.
  - unfold pick_output_folder. destruct (PyStr.truthy folder); cbn; auto.
  - destruct (convert_enabled g); auto.
    destruct (gui_after_fields (trace_of (convert (fields g) w)) g) as [H1 _].
    rewrite H1. exact H.
Qed.

Lemma X3_chosen_input_stays_witness :
  PyStr.truthy
    (input_path
       (fields (fst (fst (session [Browse ""; ClickConvert; Browse ""]
                                  (pick_file "/x/song.mov" (initial_gui "/home/user"))
                                  working_world)))))
  = true.
Proof.
  destruct (X3_chosen_input_stays (os_path := posixpath)
              [Browse ""; ClickConvert; Browse ""]
              (pick_file "/x/song.mov" (initial_gui "/home/user"))
              working_world) as [_ [_ H]].
  apply H. reflexivity.
Defined.

(** X4. A click on CONVERT that the entry point turns down (no input
    chosen, output directory missing, or no tool found) leaves the window
    exactly as it was: nothing is logged and the buttons keep their state. *)
Theorem X4_rejected_click_changes_nothing
        {os_path : OsPath} (g : Gui) (w : World) :
  result_of (start_convert (fields g) w) = Ok None ->
  fst (fst (user_step ClickConvert g w)) = g.
Proof.
  intros H. rewrite user_step_gui.
  destruct (convert_enabled g); [| reflexivity].
  destruct (convert_not_started _ _ H) as [_ Ht]. rewrite Ht.
  apply gui_after_silent, start_convert_rejected_silent, H.
Qed.

Lemma X4_rejected_click_changes_nothing_witness :
  fst (fst (user_step ClickConvert (initial_gui "/home/user") working_world))
  = initial_gui "/home/user".
Proof.
  apply (X4_rejected_click_changes_nothing (os_path := posixpath)).
  reflexivity.
Defined.

(** X5. When the entry point started a worker and the worker's [run]
    returned, the window is no longer busy after the click: CONVERT is
    enabled and CANCEL is disabled, whether the conversion succeeded or
    not. *)
Theorem X5_finished_click_releases_busy
        {os_path : OsPath} (g : Gui) (w : World) (wk : FfmpegWorker) :
  convert_enabled g = true ->
  result_of (start_convert (fields g) w) = Ok (Some wk) ->
  result_of (convert (fields g) w) = Ok tt ->
  let g' := fst (fst (user_step ClickConvert g w)) in
  convert_enabled g' = true /\ cancel_enabled g' = false.
Proof.
  intros He Hs Hc g'. subst g'. rewrite user_step_gui, He.
  destruct (convert_with_worker _ _ _ Hs) as [Hr Ht].
  rewrite Hr in Hc.
  destruct (run_ok_ends_finished _ _ Hc) as [body [ok Hbody]].
  rewrite Ht, Hbody, app_assoc, gui_after_app.
  cbn [gui_after fold_left apply_event].
  destruct (on_convert_finished_buttons ok
              (gui_after (trace_of (start_convert (fields g) w) ++ body) g))
    as [H1 [H2 _]].
  split; assumption.
Qed.

Lemma X5_finished_click_releases_busy_witness :
  let g := pick_file "/x/song.mov" (pick_output_folder "/out" (initial_gui "/home/user")) in
  let g' := fst (fst (user_step ClickConvert g working_world)) in
  convert_enabled g' = true /\ cancel_enabled g' = false.
Proof.
  intros g.
  apply (X5_finished_click_releases_busy (os_path := posixpath)
           g working_world (worker_of (fields g) "/usr/bin/ffmpeg"));
    reflexivity.
Defined.

Section InterleavedClick.
Context {os_path : OsPath}.

Lemma interleave_snoc_left {A : Type} (x : A) (l1 l2 l : list A) :
  Interleave l1 l2 l -> Interleave (l1 ++ [x]) l2 (l ++ [x]).
Proof.
  induction 1; cbn [app].
  - apply interleave_left, interleave_nil.
  - apply interleave_left. assumption.
  - apply interleave_right. assumption.
Qed.

Lemma cons_app_two {A : Type} (e : A) (l : list A) (x f : A) :
  e :: l ++ [x; f] = (e :: l ++ [x]) ++ [f].
Proof. cbn [app]. rewrite <- app_assoc. reflexivity. Qed.

Lemma deliveries_app (s1 s2 : list Happening) :
  deliveries (s1 ++ s2) = deliveries s1 ++ deliveries s2.
Proof. unfold deliveries. apply flat_map_app. Qed.

Lemma user_lines_app (s1 s2 : list Happening) :
  user_lines (s1 ++ s2) = user_lines s1 ++ user_lines s2.
Proof. unfold user_lines. apply flat_map_app. Qed.

Lemma log_signal_texts_app (t1 t2 : list Event) :
  log_signal_texts (t1 ++ t2) = log_signal_texts t1 ++ log_signal_texts t2.
Proof. unfold log_signal_texts. apply flat_map_app. Qed.

Lemma log_signal_texts_logs (lines : list string) :
  log_signal_texts (map EvLogSignal lines) = lines.
Proof.
  unfold log_signal_texts. induction lines as [| l r IH]; [reflexivity |].
  cbn [map flat_map app]. rewrite IH. reflexivity.
Qed.

Lemma calm_logs (lines : list string) :
  forallb is_calm (map EvLogSignal lines) = true.
Proof. induction lines as [| l r IH]; cbn; auto. Qed.

(** One happening while CONVERT is disabled: the button stays disabled and
    the log gains either nothing, or the text of a log signal, or the line
    of a file or folder the user picked. *)
Lemma happen_while_busy (w : World) (g : Gui) (h : Happening) :
  convert_enabled g = false ->
  forallb is_calm (deliveries [h]) = true ->
  convert_enabled (happen w g h) = false
  /\ ((log_view (happen w g h) = log_view g
       /\ log_signal_texts (deliveries [h]) = [] /\ user_lines [h] = [])
      \/ (exists x, log_view (happen w g h) = log_view g ++ [x]
                    /\ log_signal_texts (deliveries [h]) = [x]
                    /\ user_lines [h] = [])
      \/ (exists x, log_view (happen w g h) = log_view g ++ [x]
                    /\ log_signal_texts (deliveries [h]) = []
                    /\ user_lines [h] = [x])).
Proof.
  intros Hbusy Hcalm. destruct h as [e | a]; cbn [happen].
  - destruct e; try discriminate; cbn; split; auto.
    right. left. eexists. auto.
  - rewrite user_step_gui. destruct a; cbn; try rewrite Hbusy; auto.
    + unfold pick_file. destruct (PyStr.truthy path); cbn; auto.
      split; [exact Hbusy |]. right. right. eexists. auto.
    + unfold pick_output_folder. destruct (PyStr.truthy folder); cbn; auto.
      split; [exact Hbusy |]. right. right. eexists. auto.
Qed.

(** A stretch of happenings while the window is busy: the log grows by the
    texts of the log signals and the lines of the user's picks, shuffled
    together with each sequence in its own order. *)
Lemma busy_stretch (w : World) (sched : list Happening) :
  forall g,
    convert_enabled g = false ->
    forallb is_calm (deliveries sched) = true ->
    convert_enabled (fold_left (happen w) sched g) = false
    /\ exists rest,
        log_view (fold_left (happen w) sched g) = log_view g ++ rest
        /\ Interleave (log_signal_texts (deliveries sched)) (user_lines sched)
                      rest.
Proof.
  induction sched as [| h r IH]; intros g Hbusy Hcalm.
  - split; [exact Hbusy |]. exists []. rewrite app_nil_r.
    split; [reflexivity | apply interleave_nil].
  - change (h :: r) with ([h] ++ r) in Hcalm |- *.
    rewrite deliveries_app, forallb_app in Hcalm.
    apply andb_prop in Hcalm. destruct Hcalm as [Hh Hr].
    rewrite deliveries_app, log_signal_texts_app, user_lines_app.
    cbn [app fold_left].
    destruct (happen_while_busy w g h Hbusy Hh) as [Hb Hlog].
    destruct (IH (happen w g h) Hb Hr) as [Hfinal [rest [Hrest Hil]]].
    split; [exact Hfinal |].
    destruct Hlog as [[Hl [Hs Hu]] | [[x [Hl [Hs Hu]]] | [x [Hl [Hs Hu]]]]];
      rewrite Hs, Hu; cbn [app].
    + exists rest. rewrite Hrest, Hl. auto.
    + exists (x :: rest). rewrite Hrest, Hl, <- app_assoc.
      split; [reflexivity | apply interleave_left, Hil].
    + exists (x :: rest). rewrite Hrest, Hl, <- app_assoc.
      split; [reflexivity | apply interleave_right, Hil].
Qed.

End InterleavedClick.

(** X6. The log after a click that started a worker whose child ran,
    whatever the user does with the window while the worker runs: what was
    there before, the two lines of the entry point, and then the child's
    lines in the order it wrote them followed by the verdict for its exit
    status, shuffled with the lines of the files and folders the user
    picked meanwhile, and nothing else. *)
Theorem X6_log_of_a_click
        {os_path : OsPath} (g : Gui) (w : World) (ff : string) (p : Process)
        (before : list Happening) :
  let worker := worker_of (fields g) ff in
  let finished := Delivered (EvFinishedSignal (returncode p =? 0)%Z) in
  PyStr.truthy (input_path (fields g)) = true ->
  PyStr.mem (output_dir (fields g)) (dirs w) = true ->
  result_of (ensure_ffmpeg true w) = Ok (Some ff) ->
  launch (world_of (ensure_ffmpeg true w)) (command worker) = LaunchRuns p ->
  deliveries (before ++ [finished])
  = trace_of (run worker (world_of (ensure_ffmpeg true w))) ->
  exists rest,
    log_view (click_interleaved (before ++ [finished]) g w)
    = log_view g
        ++ [("=== Starting conversion ===" ++ newline)%string;
            ("CMD: " ++ PyStr.str_join " " (command worker) ++ newline)%string]
        ++ rest
    /\ Interleave (stdout_lines p ++ [verdict_line (returncode p =? 0)%Z])
                  (user_lines before) rest.
Proof.
  intros worker finished Hi Hd Hff Hl Hdel.
  pose proof (ensure_truthy true w ff Hff) as Ht.
  destruct (convert_started _ _ _ Hi Hd Hff Ht) as [Hs _].
  subst finished.
  rewrite (run_started _ _ _ Hl) in Hdel. cbn [trace_of snd] in Hdel.
  rewrite deliveries_app in Hdel. cbn [deliveries flat_map app] in Hdel.
  rewrite cons_app_two in Hdel.
  apply app_inj_tail in Hdel. destruct Hdel as [Hbefore _].
  unfold click_interleaved. cbv zeta. rewrite Hs.
  cbn [world_of trace_of fst snd].
  change (EvIsDir (output_dir (fields g)) true
            :: trace_of (ensure_ffmpeg true w) ++ ?x)
    with ((EvIsDir (output_dir (fields g)) true
             :: trace_of (ensure_ffmpeg true w)) ++ x).
  rewrite gui_after_app.
  rewrite (gui_after_silent (_ :: trace_of (ensure_ffmpeg true w)))
    by (cbn [forallb]; apply (silent_ensure true w)).
  rewrite fold_left_app. cbn [fold_left happen apply_event].
  set (g1 := gui_after (start_events (fields g) ff) g).
  assert (Hcalm : forallb is_calm (deliveries before) = true).
  { rewrite Hbefore. cbn [forallb is_calm andb].
    rewrite forallb_app, calm_logs. reflexivity. }
  destruct (busy_stretch (world_of (ensure_ffmpeg true w)) before g1
              eq_refl Hcalm) as [_ [rest [Hrest Hil]]].
  match goal with
  | |- context [on_convert_finished ?ok ?g0] =>
      destruct (on_convert_finished_buttons ok g0) as [_ [_ Hlog]]
  end.
  exists (rest ++ [verdict_line (returncode p =? 0)%Z]).
  rewrite Hlog, Hrest. split.
  - subst g1. cbn [start_events gui_after fold_left apply_event append_log
                   set_busy log_view].
    rewrite <- !app_assoc. reflexivity.
  - apply interleave_snoc_left.
    rewrite Hbefore in Hil. cbn [log_signal_texts flat_map app] in Hil.
    change (flat_map _ ?t) with (log_signal_texts t) in Hil.
    rewrite log_signal_texts_app, log_signal_texts_logs in Hil.
    cbn in Hil. rewrite app_nil_r in Hil. exact Hil.
Qed.

Lemma X6_log_of_a_click_witness :
  let g := pick_file "/x/song.mov"
             (pick_output_folder "/out" (initial_gui "/home/user")) in
  log_view (click_interleaved busy_schedule g working_world)
  = log_view g
      ++ [("=== Starting conversion ===" ++ newline)%string;
          ("CMD: " ++ PyStr.str_join " "
                        (command (worker_of (fields g) "/usr/bin/ffmpeg"))
             ++ newline)%string;
          ("INPUT: /x/next.mov" ++ newline)%string;
          ("size=    1024kB time=00:01:00.00" ++ newline)%string;
          ("OUTPUT DIR: /home/user" ++ newline)%string;
          verdict_line true]
  /\ exists rest,
      log_view (click_interleaved busy_schedule g working_world)
      = log_view g
          ++ [("=== Starting conversion ===" ++ newline)%string;
              ("CMD: " ++ PyStr.str_join " "
                            (command (worker_of (fields g) "/usr/bin/ffmpeg"))
                 ++ newline)%string]
          ++ rest
      /\ Interleave (stdout_lines working_ffmpeg ++ [verdict_line true])
                    (user_lines (firstn 6 busy_schedule)) rest.
Proof.
  intros g. split; [reflexivity |].
  apply (X6_log_of_a_click (os_path := posixpath)
           g working_world "/usr/bin/ffmpeg" working_ffmpeg
           (firstn 6 busy_schedule));
    reflexivity.
Defined.

(** ** The tool locator, case by case *)

(** Unfold the locator down to the questions it asks of the world, then
    split on every answer. *)
Ltac unfold_locator :=
  cbv beta iota zeta delta
      [ensure_ffmpeg _install_ffmpeg_windows _install_ffmpeg_macos
       _find_ffmpeg_binary _app_base_dir critical_if_parent
       try_except bind ask ret os_path_isfile shutil_which message_box
       subprocess_call result_of world_of trace_of fst snd is_Exception
       after_exit os_name sys_platform sys_frozen sys_executable file_abspath
       CREATE_NEW_CONSOLE files dirs search_path user_reply launch].

Ltac split_answers :=
  repeat match goal with
         | |- context [match ?x with _ => _ end] =>
             lazymatch x with
             | context [match _ with _ => _ end] => fail
             | _ => destruct x eqn:?; cbv beta iota zeta
             end
         end.

Ltac split_plain :=
  repeat match goal with
         | |- context [match ?x with _ => _ end] =>
             lazymatch x with
             | context [match _ with _ => _ end] => fail
             | _ => destruct x; cbv beta iota zeta
             end
         end.

Section LocatorCases.
Context {os_path : OsPath}.

Lemma button_eqb_yes (r : StandardButton) :
  negb (button_eqb r Yes) = false -> r = Yes.
Proof. destruct r; cbn; congruence. Qed.

Lemma truthy_not_empty (s : string) : PyStr.truthy s = true -> s <> "".
Proof. unfold PyStr.truthy. intros H ->. discriminate. Qed.

End LocatorCases.

(** X7. The locator always returns: no failure to start an installer
    escapes it, and what it returns is either "not found" or a path that is
    not the empty string. *)
Theorem X7_locator_always_returns
        {os_path : OsPath} (parent : bool) (w : World) :
  exists r,
    result_of (ensure_ffmpeg parent w) = Ok r
    /\ (r = None \/ exists ff, r = Some ff /\ ff <> "").
Proof.
  destruct (total_ensure parent w) as [r Hr]. exists r. split; [exact Hr |].
  destruct r as [ff |]; [right | left; reflexivity].
  exists ff. split; [reflexivity |].
  apply truthy_not_empty, (ensure_truthy parent w ff Hr).
Qed.

(** X8. When the first probe finds ffmpeg the locator is that probe and
    nothing more: no dialog, no installer, the same world.  And a copy next
    to the application wins over the search path, which is then not even
    consulted. *)
Theorem X8_found_at_once
        {os_path : OsPath} (parent : bool) (w : World) :
  (forall r, result_of (_find_ffmpeg_binary w) = Ok r ->
             PyStr.truthy_opt r = true ->
             ensure_ffmpeg parent w = _find_ffmpeg_binary w)
  /\ (PyStr.mem (local_ffmpeg_path w) (files w) = true ->
      _find_ffmpeg_binary w
      = (Ok (Some (local_ffmpeg_path w)), w,
         [EvIsFile (local_ffmpeg_path w) true])).
Proof.
  split.
  - intros r Hr Ht. destruct (find_run w) as [r0 E].
    rewrite E in Hr. cbn in Hr. injection Hr as ->.
    unfold ensure_ffmpeg, bind. rewrite E at 1. rewrite Ht.
    cbn. rewrite app_nil_r. symmetry. exact E.
  - intros H. unfold _find_ffmpeg_binary, bind. rewrite app_base_dir_run.
    unfold ask, os_path_isfile. cbn. fold (local_ffmpeg_path w).
    rewrite H. reflexivity.
Qed.

Lemma X8_found_at_once_witness :
  ensure_ffmpeg true working_world = _find_ffmpeg_binary working_world
  /\ trace_of (ensure_ffmpeg true working_world)
     = [EvIsFile "/opt/app/ffmpeg" false;
        EvWhich "ffmpeg" (Some "/usr/bin/ffmpeg")]
  /\ _find_ffmpeg_binary unexecutable_world
     = (Ok (Some "/opt/app/ffmpeg"), unexecutable_world,
        [EvIsFile "/opt/app/ffmpeg" true]).
Proof.
  destruct (X8_found_at_once (os_path := posixpath) true working_world)
    as [H _].
  destruct (X8_found_at_once (os_path := posixpath) true unexecutable_world)
    as [_ H'].
  split; [apply (H (Some "/usr/bin/ffmpeg")); reflexivity |].
  split; [reflexivity |].
  apply H'. reflexivity.
Defined.

(** X9. An installer is started only on Windows with the script next to
    the application, or on macOS; and when a parent window was given, only
    after the user answered yes to the question of that platform. *)
Theorem X9_installer_needs_consent
        {os_path : OsPath} (parent : bool) (w : World) :
  existsb is_spawn_attempt (trace_of (ensure_ffmpeg parent w)) = true ->
  (PyStr.startswith "win" (sys_platform w) = true
   /\ PyStr.mem (path_join (app_base_dir_of w) "ffmpeginstall.bat") (files w)
      = true
   /\ (parent = false \/ user_reply w "FFmpeg not found" = Yes))
  \/ (PyStr.startswith "win" (sys_platform w) = false
      /\ (sys_platform w =? "darwin") = true
      /\ (parent = false \/ user_reply w "Install FFmpeg" = Yes)).
Proof.
  destruct w, parent; unfold app_base_dir_of; unfold_locator;
    split_answers; cbn [existsb is_spawn_attempt orb app];
    intros H; try discriminate;
    repeat match goal with
           | E : negb (button_eqb _ Yes) = false |- _ =>
               apply button_eqb_yes in E
           end;
    tauto.
Qed.

Lemma X9_installer_needs_consent_witness :
  user_reply windows_world "FFmpeg not found" = Yes.
Proof.
  destruct (X9_installer_needs_consent (os_path := posixpath)
              true windows_world eq_refl) as [[_ [_ [H | H]]] | [H _]].
  - discriminate.
  - exact H.
  - discriminate.
Defined.

(** X10. With a parent window, "not found" is never silent: whenever the
    locator returns [None] the last thing it did was to show a critical
    message box. *)
Theorem X10_not_found_is_explained
        {os_path : OsPath} (w : World) :
  result_of (ensure_ffmpeg true w) = Ok None ->
  ends_with_critical (trace_of (ensure_ffmpeg true w)) = true.
Proof.
  destruct w; unfold_locator; split_answers;
    intros H; try discriminate; try reflexivity;
    injection H as H;
    match goal with
    | E : PyStr.truthy_opt _ = true |- _ => rewrite H in E; discriminate E
    end.
Qed.

Lemma X10_not_found_is_explained_witness :
  ends_with_critical (trace_of (ensure_ffmpeg true bare_linux_world)) = true.
Proof.
  apply (X10_not_found_is_explained (os_path := posixpath) bare_linux_world).
  reflexivity.
Defined.



(** X14. One call of the locator starts an installer at most once. *)
Theorem X14_one_install_attempt
        {os_path : OsPath} (parent : bool) (w : World) :
  List.length (filter is_spawn_attempt (trace_of (ensure_ffmpeg parent w))) <= 1.
Proof.
  destruct w, parent; unfold_locator; split_plain;
    cbn [filter is_spawn_attempt app List.length]; lia.
Qed.


(** X12. On macOS with Homebrew, once the user has agreed, the locator
    runs [brew install ffmpeg], waits for it to exit, and probes again in
    the world the installation has left behind; that second probe decides
    the result. *)
Theorem X12_brew_is_waited_for
        {os_path : OsPath} (w : World) (brew : string) (p : Process) :
  let argv := [brew; "install"; "ffmpeg"] in
  (sys_platform w =? "darwin") = true ->
  result_of (_find_ffmpeg_binary w) = Ok None ->
  lookup_path "brew" (search_path w) = Some brew ->
  PyStr.truthy brew = true ->
  user_reply w "Install FFmpeg" = Yes ->
  launch w argv = LaunchRuns p ->
  result_of (ensure_ffmpeg true w)
  = match result_of (_find_ffmpeg_binary (after_exit p w)) with
    | Ok found => if PyStr.truthy_opt found then Ok found else Ok None
    | Raise e => Raise e
    end
  /\ world_of (ensure_ffmpeg true w) = after_exit p w
  /\ (exists tail,
        trace_of (ensure_ffmpeg true w)
        = trace_of (_find_ffmpeg_binary w)
            ++ [EvWhich "brew" (Some brew);
                EvDialog Question "Install FFmpeg";
                EvSpawn argv 0;
                EvChildExit argv (returncode p)]
            ++ trace_of (_find_ffmpeg_binary (after_exit p w))
            ++ tail).
Proof.
  intros argv Hmac Hnone Hbrew Htruthy Hreply Hlaunch.
  apply String.eqb_eq in Hmac.
  destruct (find_run w) as [r0 E0].
  rewrite E0 in Hnone. cbn in Hnone. injection Hnone as ->.
  destruct (find_run (after_exit p w)) as [r1 E1].
  assert (Hrun :
    ensure_ffmpeg true w
    = (Ok (if PyStr.truthy_opt r1 then r1 else None), after_exit p w,
       trace_of (_find_ffmpeg_binary w)
         ++ [EvWhich "brew" (Some brew);
             EvDialog Question "Install FFmpeg";
             EvSpawn argv 0;
             EvChildExit argv (returncode p)]
         ++ trace_of (_find_ffmpeg_binary (after_exit p w))
         ++ if PyStr.truthy_opt r1 then []
            else [EvDialog Critical "FFmpeg not available"])).
  { unfold ensure_ffmpeg. unfold bind at 1. rewrite E0.
    cbn [PyStr.truthy_opt]. unfold bind at 1. unfold ask at 1.
    rewrite Hmac.
    change (PyStr.startswith "win" "darwin") with false. cbv iota.
    change ("darwin" =? "darwin") with true. cbv iota.
    unfold bind at 1. unfold _install_ffmpeg_macos.
    unfold bind at 1. unfold shutil_which at 1. rewrite Hbrew, Htruthy.
    unfold bind at 1. unfold message_box at 1. rewrite Hreply.
    cbn [button_eqb negb].
    unfold try_except, bind at 1. unfold subprocess_call. fold argv.
    rewrite Hlaunch. unfold ret at 1. unfold bind at 1. rewrite E1.
    destruct (PyStr.truthy_opt r1); cbn; rewrite ?app_nil_r; reflexivity. }
  rewrite Hrun, E1. cbn [result_of world_of trace_of fst snd].
  split; [destruct (PyStr.truthy_opt r1); reflexivity |].
  split; [reflexivity | eexists; reflexivity].
Qed.

Lemma X12_brew_is_waited_for_witness :
  result_of (ensure_ffmpeg true macos_world)
  = Ok (Some "/opt/homebrew/bin/ffmpeg")
  /\ world_of (ensure_ffmpeg true macos_world)
     = after_exit brew_process macos_world.
Proof.
  destruct (X12_brew_is_waited_for (os_path := posixpath)
              macos_world "/opt/homebrew/bin/brew" brew_process
              eq_refl eq_refl eq_refl eq_refl eq_refl eq_refl)
    as [Hr [Hw _]].
  split; [rewrite Hr; reflexivity | exact Hw].
Defined.

(** X13. When the installer script cannot be started on Windows, whatever
    the exception, the locator catches it, shows "Installer error" and then
    "FFmpeg Missing", does not probe again, leaves the world as it was and
    returns "not found". *)
Theorem X13_installer_cannot_start
        {os_path : OsPath} (w : World) (e : Exn) :
  let installer := path_join (app_base_dir_of w) "ffmpeginstall.bat" in
  let argv := ["cmd"; "/c"; installer] in
  PyStr.startswith "win" (sys_platform w) = true ->
  result_of (_find_ffmpeg_binary w) = Ok None ->
  PyStr.mem installer (files w) = true ->
  user_reply w "FFmpeg not found" = Yes ->
  launch w argv = LaunchRaises e ->
  ensure_ffmpeg true w
  = (Ok None, w,
     trace_of (_find_ffmpeg_binary w)
       ++ [EvIsFile installer true;
           EvDialog Question "FFmpeg not found";
           EvSpawnFailed argv e;
           EvDialog Critical "Installer error";
           EvDialog Critical "FFmpeg Missing"]).
Proof.
  intros installer argv Hwin Hnone Hinst Hreply Hlaunch.
  destruct (find_run w) as [r0 E0].
  rewrite E0 in Hnone. cbn in Hnone. injection Hnone as ->.
  unfold ensure_ffmpeg. unfold bind at 1. rewrite E0.
  cbn [PyStr.truthy_opt]. unfold bind at 1. unfold ask at 1. rewrite Hwin.
  unfold bind at 1. rewrite app_base_dir_run.
  unfold bind at 1. unfold os_path_isfile at 1.
  fold installer. rewrite Hinst.
  unfold bind at 1. unfold bind at 1.
  unfold _install_ffmpeg_windows. unfold bind at 1.
  unfold message_box at 1. rewrite Hreply. cbn [button_eqb negb].
  unfold try_except, bind at 1. unfold ask at 1.
  unfold bind at 1. unfold subprocess_call. fold argv. rewrite Hlaunch.
  reflexivity.
Qed.

Lemma X13_installer_cannot_start_witness :
  let w := {| os_name := "nt";
              sys_platform := "win32";
              sys_frozen := true;
              sys_executable := "C:/app/converter.exe";
              file_abspath := "C:/app/main.py";
              CREATE_NEW_CONSOLE := Some 16%Z;
              files := ["C:/app/ffmpeginstall.bat"];
              dirs := [];
              search_path := [];
              user_reply := fun _ => Yes;
              launch := fun _ => LaunchRaises PermissionError |} in
  result_of (ensure_ffmpeg true w) = Ok None
  /\ world_of (ensure_ffmpeg true w) = w.
Proof.
  intros w.
  rewrite (X13_installer_cannot_start (os_path := posixpath) w PermissionError
             eq_refl eq_refl eq_refl eq_refl eq_refl).
  split; reflexivity.
Defined.

(** X15. [run] emits its finished signal exactly once, as its last event,
    when it returns normally, and emits no signal at all when it raises,
    which it does exactly when the launch raised something other than
    [FileNotFoundError]. *)
Theorem X15_finished_once_iff_returns
        {os_path : OsPath} (self : FfmpegWorker) (w : World) :
  (result_of (run self w) = Ok tt ->
   exists body ok,
     trace_of (run self w) = body ++ [EvFinishedSignal ok]
     /\ filter is_finished_signal body = [])
  /\ (forall e, result_of (run self w) = Raise e ->
        filter is_signal (trace_of (run self w)) = []
        /\ launch w (command self) = LaunchRaises e
        /\ is_FileNotFoundError e = false)
  /\ (forall e, launch w (command self) = LaunchRaises e ->
        is_FileNotFoundError e = false ->
        result_of (run self w) = Raise e).
Proof.
  destruct (launch w (command self)) as [e | p] eqn:E.
  - destruct (is_FileNotFoundError e) eqn:Ee.
    + destruct e; try discriminate. rewrite (run_not_found _ _ E).
      split; [| split].
      * intros _. eexists [_; _], _. split; reflexivity.
      * intros e H. discriminate.
      * intros e H He. injection H as <-. discriminate.
    + rewrite (run_other_error _ _ _ E Ee). split; [| split].
      * discriminate.
      * intros e' H. cbn in H. injection H as <-. auto.
      * intros e' H He. injection H as <-. reflexivity.
  - rewrite (run_started _ _ _ E). split; [| split].
    + intros _. eexists (_ :: _ ++ [_]), _. cbn [trace_of snd app]. split.
      * rewrite <- app_assoc. reflexivity.
      * cbn [filter is_finished_signal]. rewrite filter_app, filter_finished_logs.
        reflexivity.
    + intros e H. discriminate.
    + intros e H. discriminate.
Qed.

Lemma X15_finished_once_iff_returns_witness :
  (exists body ok,
      trace_of (run ffmpeg_worker linux_world) = body ++ [EvFinishedSignal ok]
      /\ filter is_finished_signal body = [])
  /\ result_of (run bundled_worker unexecutable_world) = Raise PermissionError.
Proof.
  destruct (X15_finished_once_iff_returns (os_path := posixpath)
              ffmpeg_worker linux_world) as [H _].
  destruct (X15_finished_once_iff_returns (os_path := posixpath)
              bundled_worker unexecutable_world) as [_ [_ H']].
  split; [apply H; reflexivity | apply H'; reflexivity].
Defined.

(** X16. The entry point never raises, and it starts a worker exactly when
    an input path is chosen, the output directory exists and the locator
    hands out a tool path; the worker then carries the command built from
    that path and runs in the output directory. *)
Theorem X16_started_iff
        {os_path : OsPath} (self : RetroWindow) (w : World) :
  (exists r, result_of (start_convert self w) = Ok r)
  /\ (forall wk,
        result_of (start_convert self w) = Ok (Some wk)
        <-> (PyStr.truthy (input_path self) = true
             /\ PyStr.mem (output_dir self) (dirs w) = true
             /\ exists ff,
                 result_of (ensure_ffmpeg true w) = Ok (Some ff)
                 /\ wk = worker_of self ff)).
Proof.
  destruct (PyStr.truthy (input_path self)) eqn:Hi.
  - destruct (PyStr.mem (output_dir self) (dirs w)) eqn:Hd.
    + rewrite (start_convert_validated _ _ Hi Hd). cbv zeta.
      destruct (total_ensure true w) as [r Hr]. rewrite Hr.
      destruct r as [ff |].
      * rewrite (ensure_truthy true w ff Hr). cbn [result_of fst].
        split; [eexists; reflexivity |]. intros wk. split.
        -- intros H. injection H as <-. repeat split. exists ff. auto.
        -- intros [_ [_ [ff' [H ->]]]]. injection H as <-. reflexivity.
      * cbn [result_of fst]. split; [eexists; reflexivity |].
        intros wk. split; [discriminate |].
        intros [_ [_ [ff [H _]]]]. discriminate.
    + rewrite (start_convert_no_dir _ _ Hi Hd). cbn [result_of fst].
      split; [eexists; reflexivity |]. intros wk.
      split; [discriminate | intros [_ [H _]]; discriminate].
  - rewrite (start_convert_no_input _ _ Hi). cbn [result_of fst].
    split; [eexists; reflexivity |]. intros wk.
    split; [discriminate | intros [H _]; discriminate].
Qed.

Lemma X16_started_iff_witness :
  result_of (start_convert song_window linux_world)
  = Ok (Some (worker_of song_window "/usr/bin/ffmpeg")).
Proof.
  destruct (X16_started_iff (os_path := posixpath) song_window linux_world)
    as [_ H].
  apply H. repeat split. exists "/usr/bin/ffmpeg". split; reflexivity.
Defined.

(** ** The output file and the codec defaults *)

Module OutputFacts.
Import PyStr.

Lemma rindex_none_absent (c : ascii) (s : string) :
  rindex c s = None <-> absent_char c s = true.
Proof.
  induction s as [| a r IH]; cbn [rindex absent_char]; [tauto |].
  destruct (rindex c r) as [i |].
  - split; [discriminate |]. intros H. apply andb_prop in H.
    destruct H as [_ H]. apply IH in H. discriminate.
  - destruct (Ascii.eqb a c); cbn [negb andb].
    + split; discriminate.
    + split; intros _; [apply IH |]; reflexivity.
Qed.

Lemma absent_app (c : ascii) (a b : string) :
  absent_char c (a ++ b) = absent_char c a && absent_char c b.
Proof.
  induction a as [| x a IH]; cbn [append absent_char]; [reflexivity |].
  rewrite IH, andb_assoc. reflexivity.
Qed.

Lemma absent_take (c : ascii) (n : nat) :
  forall s, absent_char c s = true -> absent_char c (take n s) = true.
Proof.
  induction n as [| n IH]; intros [| a r] H; try reflexivity.
  cbn [take absent_char] in *. apply andb_prop in H. destruct H as [Ha Hr].
  rewrite Ha, (IH r Hr). reflexivity.
Qed.

Lemma rindex_after_sep (c : ascii) (a b : string) :
  rindex c b = None ->
  rindex c (a ++ String c b) = Some (String.length a).
Proof.
  intros H. induction a as [| x a IH]; cbn [append rindex String.length].
  - rewrite H, Ascii.eqb_refl. reflexivity.
  - rewrite IH. reflexivity.
Qed.

Lemma drop_after_sep (c : ascii) (a b : string) :
  drop (S (String.length a)) (a ++ String c b) = b.
Proof. induction a as [| x a IH]; [reflexivity | exact IH]. Qed.

Lemma ends_with_char_split (c : ascii) (s : string) :
  ends_with_char c s = true -> exists a, s = (a ++ String c "")%string.
Proof.
  induction s as [| x r IH]; [discriminate |]. cbn [ends_with_char].
  destruct r as [| y r'].
  - intros H. apply Ascii.eqb_eq in H. subst x. exists "". reflexivity.
  - intros H. destruct (IH H) as [a Ha]. exists (String x a).
    cbn [append]. rewrite <- Ha. reflexivity.
Qed.

(** [basename] of anything followed by a separator and a name without
    separator is that name. *)
Lemma basename_after_sep (a name : string) :
  absent_char Posixpath.sep name = true ->
  Posixpath.basename (a ++ String Posixpath.sep name) = name.
Proof.
  intros H. apply rindex_none_absent in H.
  unfold Posixpath.basename, rfind, slice_from.
  rewrite (rindex_after_sep _ a _ H).
  replace (Z.to_nat (Z.of_nat (String.length a) + 1))
    with (S (String.length a)) by lia.
  apply drop_after_sep.
Qed.

Lemma basename_plain (name : string) :
  absent_char Posixpath.sep name = true -> Posixpath.basename name = name.
Proof.
  intros H. apply rindex_none_absent in H.
  unfold Posixpath.basename, rfind, slice_from. rewrite H. reflexivity.
Qed.

(** The base name the program computes holds no separator. *)
Lemma base_name_absent (in_path : string) :
  absent_char Posixpath.sep (base_name in_path) = true.
Proof.
  unfold base_name. cbn [path_splitext path_basename Posixpath.posixpath].
  pose proof (PosixFacts.basename_no_sep in_path) as H.
  apply rindex_none_absent in H.
  unfold Posixpath.splitext. destruct (_ && _)%bool; cbn [fst].
  - apply absent_take, H.
  - exact H.
Qed.

Lemma append_assoc (a b c : string) : ((a ++ b) ++ c = a ++ (b ++ c))%string.
Proof. induction a as [| x a IH]; cbn [append]; [| rewrite IH]; reflexivity. Qed.

End OutputFacts.

(** X17. Under [posixpath], for a format without a separator in it, the
    file name of the output path is the input's base name without its
    extension, a dot and the format, whatever the input path and the output
    directory: the output file lies directly in what was given as output
    directory, never in a directory taken from the input path. *)
Theorem X17_output_file_name (in_path output_dir ext : string) :
  absent_char Posixpath.sep ext = true ->
  Posixpath.basename (out_path in_path output_dir ext)
  = (base_name in_path ++ "." ++ ext)%string
  /\ absent_char Posixpath.sep (base_name in_path ++ "." ++ ext) = true.
Proof.
  intros Hext.
  assert (Hname : absent_char Posixpath.sep (base_name in_path ++ "." ++ ext)
                  = true).
  { rewrite OutputFacts.absent_app, OutputFacts.base_name_absent.
    cbn [append absent_char]. rewrite Hext. reflexivity. }
  split; [| exact Hname].
  rewrite PosixFacts.out_path_posix. unfold spec_out_path.
  destruct (output_dir =? "")%string eqn:Ee; cbn [orb].
  - apply String.eqb_eq in Ee. subst output_dir. cbn [append].
    apply OutputFacts.basename_plain, Hname.
  - destruct (PyStr.ends_with_char Posixpath.sep output_dir) eqn:Es.
    + destruct (OutputFacts.ends_with_char_split _ _ Es) as [a ->].
      rewrite OutputFacts.append_assoc. cbn [append].
      apply OutputFacts.basename_after_sep, Hname.
    + apply (OutputFacts.basename_after_sep output_dir), Hname.
Qed.

Lemma X17_output_file_name_witness :
  Posixpath.basename (out_path "/a/b/song.tar.gz" "/music/out/" "flac")
  = "song.tar.flac".
Proof.
  destruct (X17_output_file_name "/a/b/song.tar.gz" "/music/out/" "flac"
              eq_refl) as [H _].
  rewrite H. reflexivity.
Defined.

(** X18. The [else] branches of the codec chain: a quality text that is
    neither "High quality" nor "Smaller file" is treated as "Balanced", and
    the command gets no codec argument at all exactly when the format is
    not one of the eight of the format box. *)
Theorem X18_codec_defaults (ext quality : string) :
  ((quality =? "High quality") = false ->
   (quality =? "Smaller file") = false ->
   codec_args ext quality = codec_args ext "Balanced")
  /\ (codec_args ext quality = [] <-> PyStr.mem ext format_items = false).
Proof.
  split.
  - intros Hh Hs. unfold codec_args. rewrite Hh, Hs. reflexivity.
  - unfold codec_args, format_items, PyStr.mem, existsb.
    destruct (ext =? "mp3"); [cbn; destruct (quality =? "High quality");
      [| destruct (quality =? "Smaller file")]; split; discriminate |].
    destruct (ext =? "opus"); [cbn; destruct (quality =? "High quality");
      [| destruct (quality =? "Smaller file")]; split; discriminate |].
    destruct (ext =? "wav"); [cbn; split; discriminate |].
    destruct (ext =? "flac"); [cbn; split; discriminate |].
    destruct (ext =? "m4a"); [cbn; destruct (quality =? "High quality");
      split; discriminate |].
    destruct (ext =? "aac"); [cbn; destruct (quality =? "High quality");
      split; discriminate |].
    destruct (ext =? "ogg"); [cbn; destruct (quality =? "High quality");
      split; discriminate |].
    destruct (ext =? "wma"); cbn; split; try discriminate; reflexivity.
Qed.

Lemma X18_codec_defaults_witness :
  codec_args "mp3" "Medium" = ["-c:a"; "libmp3lame"; "-b:a"; "192k"]
  /\ codec_args "mp4" "Balanced" = [].
Proof.
  destruct (X18_codec_defaults "mp3" "Medium") as [H _].
  destruct (X18_codec_defaults "mp4" "Balanced") as [_ H'].
  split; [rewrite H; reflexivity | apply H'; reflexivity].
Defined.

Lemma append_cancel_l (a b c : string) :
  (a ++ b)%string = (a ++ c)%string -> b = c.
Proof.
  induction a as [| x a IH]; cbn [append]; intros H; [exact H |].
  injection H as H. apply IH, H.
Qed.

(** X19. Under [posixpath], converting one input into one output directory
    in two different formats never gives the same output path: the
    overwrite flag can only hit a file of the same format. *)
Theorem X19_formats_do_not_collide (in_path output_dir ext1 ext2 : string) :
  ext1 <> ext2 ->
  out_path in_path output_dir ext1 <> out_path in_path output_dir ext2.
Proof.
  intros Hne H. apply Hne. revert H.
  rewrite !PosixFacts.out_path_posix. unfold spec_out_path.
  destruct ((output_dir =? "") || PyStr.ends_with_char sep output_dir)%bool;
    intros H.
  - apply append_cancel_l, append_cancel_l in H.
    cbn [append] in H. injection H as H. exact H.
  - apply append_cancel_l in H. cbn [append] in H. injection H as H.
    apply append_cancel_l in H. cbn [append] in H. injection H as H. exact H.
Qed.

Lemma X19_formats_do_not_collide_witness :
  out_path "/x/song.mov" "/out" "mp3" <> out_path "/x/song.mov" "/out" "ogg".
Proof.
  apply (X19_formats_do_not_collide "/x/song.mov" "/out" "mp3" "ogg").
  discriminate.
Defined.
